(** * Sales dashboard: the client-side cache, cache key, token and fetch logic

    A shallow embedding of the data-fetching core of the dashboard:

    - [Cache]            the expiring key/value store, class [Cache<T>]
                         (src/types/cache.types.ts, and the copies in
                         SalesDashboard.tsx);
    - [JSON]             [JSON.stringify] on the flat objects handed to
                         [getCacheKey];
    - [Api]              [fetchSalesData] of src/lib/api.ts;
    - [Dashboard]        [getAuthToken], [fetchSalesData], [getCacheKey]
                         and [fetchSales] of components/SalesDashboard.tsx;
    - [ValidatedDashboard] the [fetchSales] of the variant that checks the
                         date range before fetching.

    Time is the millisecond reading of [Date.now()], an integer.  JS strings
    are modelled by [string], one character per code unit below 256. *)

From Stdlib Require Import ZArith Ascii String List Lia Bool.
From stdpp Require Import base option gmap strings list.
Import ListNotations.

#[local] Open Scope string_scope.
#[local] Open Scope Z_scope.
#[local] Arguments String.append !_ _ / : simpl nomatch.

(** ** JavaScript values used by the code *)

(** Truthiness of a [string | null | undefined]: only a non-empty string
    is truthy. *)
Definition truthy (v : option string) : bool :=
  match v with
  | Some s => negb (String.eqb s EmptyString)
  | None => false
  end.

(** [v || d] on a [string | undefined] with a string default. *)
Definition or_else (v : option string) (d : string) : string :=
  match v with
  | Some s => if truthy v then s else d
  | None => d
  end.

(** [a || []] on an optional array: every array is truthy. *)
Definition or_nil {A : Type} (v : option (list A)) : list A :=
  match v with
  | Some l => l
  | None => []
  end.

(** [o?.f] *)
Definition chain {A B : Type} (o : option A) (f : A -> option B) : option B :=
  match o with
  | Some a => f a
  | None => None
  end.

(** [a <= b] and [a > b] on strings: lexicographic on code units. *)
Definition js_le (a b : string) : bool := String.leb a b.
Definition js_gt (a b : string) : bool := String.ltb b a.

(** ** The expiring cache: [class Cache<T>] *)

Module Cache.

Record CacheItem (T : Type) : Type := mkItem {
  data : T;
  timestamp : Z
}.
Arguments mkItem {T} _ _.
Arguments data {T} _.
Arguments timestamp {T} _.

Record t (T : Type) : Type := mk {
  cache : gmap string (CacheItem T);
  duration : Z
}.
Arguments mk {T} _ _.
Arguments cache {T} _.
Arguments duration {T} _.

(** [60 * 60 * 1000], the default of the constructor. *)
Definition default_duration : Z := 60 * 60 * 1000.

Section Methods.
Context {T : Type}.

(** [new Cache<T>(durationMs)] *)
Definition new (durationMs : Z) : t T :=
  mk ∅ durationMs.

(** [get(key)] read at clock value [now]: the value and the store
    afterwards.  Both ways of falling out of the [if] reach
    [this.cache.delete(key)]. *)
Definition get (now : Z) (key : string) (c : t T) : option T * t T :=
  match cache c !! key with
  | Some cached =>
      if now - timestamp cached <? duration c
      then (Some (data cached), c)
      else (None, mk (delete key (cache c)) (duration c))
  | None => (None, mk (delete key (cache c)) (duration c))
  end.

(** [set(key, data)] at clock value [now]. *)
Definition set (now : Z) (key : string) (d : T) (c : t T) : t T :=
  mk (<[key := mkItem d now]> (cache c)) (duration c).

(** [clear()] *)
Definition clear (c : t T) : t T :=
  mk ∅ (duration c).

(** [has(key)]: [this.get(key) !== null]. *)
Definition has (now : Z) (key : string) (c : t T) : bool * t T :=
  let '(r, c') := get now key c in
  (match r with Some _ => true | None => false end, c').

End Methods.

End Cache.

(** ** Plain objects and [JSON.stringify] *)

(** A plain object whose property values are strings or [undefined]: its
    own properties in insertion order (the order of [Object.entries] and
    of [JSON.stringify]; none of the property names used here is
    integer-like). *)
Definition object : Type := list (string * option string).

(** [k in o] for an own property. *)
Definition has_own (k : string) (o : object) : bool :=
  existsb (fun kv => String.eqb (fst kv) k) o.

(** The own property [k] of [o], if there is one. *)
Fixpoint own (k : string) (o : object) : option (option string) :=
  match o with
  | [] => None
  | (k', v) :: o' => if String.eqb k' k then Some v else own k o'
  end.

(** [searchParams.get(k)] on the entries of a URLSearchParams: the first
    value under the name. *)
Fixpoint searchParams_get (k : string) (q : list (string * string)) : option string :=
  match q with
  | [] => None
  | (k', v) :: q' => if String.eqb k' k then Some v else searchParams_get k q'
  end.

(** The read [o[k]]: [undefined] when there is no such property. *)
Definition prop (k : string) (o : object) : option string :=
  match own k o with
  | Some v => v
  | None => None
  end.

(** Property names are unique in an object. *)
Definition well_formed (o : object) : Prop := NoDup (map fst o).

(** Two objects agree field by field: the same own properties with the
    same values, in whatever order they were added. *)
Definition fieldwise_equal (o1 o2 : object) : Prop :=
  forall k, own k o1 = own k o2.

Module JSON.

Definition dquote : ascii := "034"%char.
Definition backslash : ascii := "092"%char.

(** Lower-case hexadecimal digit of a number below 16. *)
Definition hex_digit (n : N) : ascii :=
  if (n <? 10)%N then ascii_of_N (48 + n) else ascii_of_N (87 + n).

(** One code unit of QuoteJSONString: the two-character escapes, the
    [\u00xx] form for the other control characters, the character
    itself otherwise. *)
Definition escape_char (c : ascii) : string :=
  let n := N_of_ascii c in
  if (n =? 8)%N then String backslash "b"
  else if (n =? 9)%N then String backslash "t"
  else if (n =? 10)%N then String backslash "n"
  else if (n =? 12)%N then String backslash "f"
  else if (n =? 13)%N then String backslash "r"
  else if (n =? 34)%N then String backslash (String dquote EmptyString)
  else if (n =? 92)%N then String backslash (String backslash EmptyString)
  else if (n <? 32)%N then
    String backslash
      (String "u" (String "0" (String "0"
        (String (hex_digit (n / 16)) (String (hex_digit (n mod 16)) EmptyString)))))
  else String c EmptyString.

Fixpoint escape (s : string) : string :=
  match s with
  | EmptyString => EmptyString
  | String c s' => escape_char c ++ escape s'
  end.

(** QuoteJSONString *)
Definition quote (s : string) : string :=
  String dquote (escape s ++ String dquote EmptyString).

(** The properties that are serialized: those whose value is not
    [undefined]. *)
Fixpoint defined (o : object) : list (string * string) :=
  match o with
  | [] => []
  | (k, Some v) :: o' => (k, v) :: defined o'
  | (_, None) :: o' => defined o'
  end.

Definition member (kv : string * string) : string :=
  quote (fst kv) ++ ":" ++ quote (snd kv).

(** The members joined by commas. *)
Fixpoint members (l : list (string * string)) : string :=
  match l with
  | [] => EmptyString
  | [kv] => member kv
  | kv :: l' => member kv ++ "," ++ members l'
  end.

(** [JSON.stringify(o)] for a plain object of strings, no indentation. *)
Definition stringify (o : object) : string :=
  "{" ++ members (defined o) ++ "}".

End JSON.

(** ** Payload types: types/sales.types.ts and types/api.types.ts

    [number] is the type of JS numbers; the code below only carries them. *)

Section Payload.
Variable number : Type.

Record Sale : Type := mkSale {
  _id : string;
  date : string;
  price : number;
  customerEmail : string;
  customerPhone : string;
  __v : number
}.

Record TotalSale : Type := mkTotalSale {
  day : string;
  totalSale : number
}.

Record AuthResponse : Type := mkAuthResponse {
  token : string;
  expire : number
}.

(** The body of a sales response as it arrives: every part that the code
    reads through [?.] or [||] may be missing. *)
Record Results : Type := mkResults {
  TotalSales : option (list TotalSale);
  Sales : option (list Sale)
}.

Record Pagination : Type := mkPagination {
  before : option string;
  after : option string
}.

Record SalesResponse : Type := mkSalesResponse {
  results : option Results;
  pagination : option Pagination
}.

(** What [fetch] hands back once it resolves; [json = None] is a body
    that [response.json()] rejects. *)
Record Response (A : Type) : Type := mkResponse {
  ok : bool;
  status : Z;
  text : string;
  json : option A
}.

(** [fetch] rejects (network failure) or resolves with a response. *)
Inductive FetchResult (A : Type) : Type :=
| Rejected
| Resolved (r : Response A).

(** The remote API.  A sales body may be the JSON value [null], which is
    [None] here.  [latency] is the time a request takes. *)
Record Server : Type := mkServer {
  authorize : FetchResult AuthResponse;
  sales : string -> list (string * string) -> FetchResult (option SalesResponse);
  latency : Z
}.

(** The requests that leave the browser. *)
Inductive Request : Type :=
| POST_getAuthorize
| GET_sales (token : string) (searchParams : list (string * string)).

(** The [Error]s thrown, one constructor per [throw] site plus the two
    rejections of the platform. *)
Inductive Error : Type :=
| AuthorizationFailed
| FailedToFetch
| FailedToFetchSalesData (status : Z) (errorText : string)
| InvalidResponseFromServer
| FetchFailed
| JsonFailed.

(** The calls of the React state setters made by [fetchSales]. *)
Inductive SetState : Type :=
| setTotalSalesData (v : list TotalSale)
| setSalesData (v : list Sale)
| setLoading (v : bool)
| setError (v : option string)
| setBeforeToken (v : string)
| setAfterToken (v : string).

(** The component state of [SalesDashboard]. *)
Record State : Type := mkState {
  authToken : option string;
  totalSalesData : list TotalSale;
  salesData : list Sale;
  loading : bool;
  error : option string;
  startDate : string;
  endDate : string;
  priceMin : string;
  email : string;
  phone : string;
  beforeToken : string;
  afterToken : string;
  currentPage : Z;
  sortBy : string;
  sortOrder : string
}.

(** Everything outside the component: the clock, the two module-level
    caches, the server, the requests sent so far and the setter calls
    queued for the next render. *)
Record World : Type := mkWorld {
  now : Z;
  tokenCache : Cache.t string;
  dataCache : Cache.t SalesResponse;
  server : Server;
  requests : list Request;
  pending : list SetState
}.

End Payload.

Arguments mkSale {number}.
Arguments mkTotalSale {number}.
Arguments mkAuthResponse {number}.
Arguments token {number}.
Arguments mkResults {number}.
Arguments TotalSales {number}.
Arguments Sales {number}.
Arguments mkSalesResponse {number}.
Arguments results {number}.
Arguments pagination {number}.
Arguments mkResponse {A}.
Arguments ok {A}.
Arguments status {A}.
Arguments text {A}.
Arguments json {A}.
Arguments Rejected {A}.
Arguments Resolved {A}.
Arguments mkServer {number}.
Arguments authorize {number}.
Arguments sales {number}.
Arguments latency {number}.
Arguments setTotalSalesData {number}.
Arguments setSalesData {number}.
Arguments setLoading {number}.
Arguments setError {number}.
Arguments setBeforeToken {number}.
Arguments setAfterToken {number}.
Arguments mkState {number}.
Arguments authToken {number}.
Arguments totalSalesData {number}.
Arguments salesData {number}.
Arguments loading {number}.
Arguments error {number}.
Arguments startDate {number}.
Arguments endDate {number}.
Arguments priceMin {number}.
Arguments email {number}.
Arguments phone {number}.
Arguments beforeToken {number}.
Arguments afterToken {number}.
Arguments currentPage {number}.
Arguments sortBy {number}.
Arguments sortOrder {number}.
Arguments mkWorld {number}.
Arguments now {number}.
Arguments tokenCache {number}.
Arguments dataCache {number}.
Arguments server {number}.
Arguments requests {number}.
Arguments pending {number}.

(** ** Effects: a state-and-exception monad over [World] *)

Section Effects.
Context {number : Type}.

Definition M (A : Type) : Type :=
  World number -> (Error + A) * World number.

Definition ret {A : Type} (a : A) : M A :=
  fun w => (inr a, w).

Definition bind {A B : Type} (m : M A) (k : A -> M B) : M B :=
  fun w =>
    match m w with
    | (inr a, w') => k a w'
    | (inl e, w') => (inl e, w')
    end.

Definition throw {A : Type} (e : Error) : M A :=
  fun w => (inl e, w).

(** [try { body } catch (err) { handler(err) }] *)
Definition try_catch {A : Type} (body : M A) (handler : Error -> M A) : M A :=
  fun w =>
    match body w with
    | (inr a, w') => (inr a, w')
    | (inl e, w') => handler e w'
    end.

(** [try { body } finally { cleanup }] with a cleanup that does not
    throw. *)
Definition try_finally {A : Type} (body : M A) (cleanup : M unit) : M A :=
  fun w =>
    match body w with
    | (r, w') => (r, snd (cleanup w'))
    end.

(** A call of a state setter: queued behind the earlier ones. *)
Definition call (u : SetState number) : M unit :=
  fun w =>
    (inr tt,
     mkWorld (now w) (tokenCache w) (dataCache w) (server w) (requests w)
             (pending w ++ [u])).

(** [tokenCache.get(key)], reading [Date.now()]. *)
Definition tokenCache_get (key : string) : M (option string) :=
  fun w =>
    let '(r, c) := Cache.get (now w) key (tokenCache w) in
    (inr r, mkWorld (now w) c (dataCache w) (server w) (requests w) (pending w)).

(** [tokenCache.set(key, data)], reading [Date.now()]. *)
Definition tokenCache_set (key : string) (d : string) : M unit :=
  fun w =>
    (inr tt,
     mkWorld (now w) (Cache.set (now w) key d (tokenCache w)) (dataCache w)
             (server w) (requests w) (pending w)).

(** [dataCache.get(key)] *)
Definition dataCache_get (key : string) : M (option (SalesResponse number)) :=
  fun w =>
    let '(r, c) := Cache.get (now w) key (dataCache w) in
    (inr r, mkWorld (now w) (tokenCache w) c (server w) (requests w) (pending w)).

(** [dataCache.set(key, data)] *)
Definition dataCache_set (key : string) (d : SalesResponse number) : M unit :=
  fun w =>
    (inr tt,
     mkWorld (now w) (tokenCache w) (Cache.set (now w) key d (dataCache w))
             (server w) (requests w) (pending w)).

(** [await fetch(...)]: the request leaves, time passes, the server's
    answer comes back or the promise rejects. *)
Definition fetch {A : Type} (rq : Request) (answer : Server number -> FetchResult A)
  : M (Response A) :=
  fun w =>
    let w' := mkWorld (now w + latency (server w)) (tokenCache w) (dataCache w)
                      (server w) (requests w ++ [rq]) (pending w) in
    match answer (server w) with
    | Rejected => (inl FetchFailed, w')
    | Resolved r => (inr r, w')
    end.

(** [await response.json()] *)
Definition response_json {A : Type} (r : Response A) : M A :=
  match json r with
  | Some d => ret d
  | None => throw JsonFailed
  end.

(** [await response.text()] *)
Definition response_text {A : Type} (r : Response A) : M string :=
  ret (text r).

End Effects.

Notation "'let!' x ':=' m 'in' k" := (bind m (fun x => k))
  (at level 10, x name, m at level 100, k at level 200).
Notation "m '>>' k" := (bind m (fun _ => k))
  (at level 100, k at level 200, right associativity).

(** One setter call applied to the state. *)
Definition apply_update {number : Type} (s : State number) (u : SetState number)
  : State number :=
  match u with
  | setTotalSalesData v =>
      mkState (authToken s) v (salesData s) (loading s) (error s) (startDate s)
        (endDate s) (priceMin s) (email s) (phone s) (beforeToken s) (afterToken s)
        (currentPage s) (sortBy s) (sortOrder s)
  | setSalesData v =>
      mkState (authToken s) (totalSalesData s) v (loading s) (error s) (startDate s)
        (endDate s) (priceMin s) (email s) (phone s) (beforeToken s) (afterToken s)
        (currentPage s) (sortBy s) (sortOrder s)
  | setLoading v =>
      mkState (authToken s) (totalSalesData s) (salesData s) v (error s) (startDate s)
        (endDate s) (priceMin s) (email s) (phone s) (beforeToken s) (afterToken s)
        (currentPage s) (sortBy s) (sortOrder s)
  | setError v =>
      mkState (authToken s) (totalSalesData s) (salesData s) (loading s) v (startDate s)
        (endDate s) (priceMin s) (email s) (phone s) (beforeToken s) (afterToken s)
        (currentPage s) (sortBy s) (sortOrder s)
  | setBeforeToken v =>
      mkState (authToken s) (totalSalesData s) (salesData s) (loading s) (error s)
        (startDate s) (endDate s) (priceMin s) (email s) (phone s) v (afterToken s)
        (currentPage s) (sortBy s) (sortOrder s)
  | setAfterToken v =>
      mkState (authToken s) (totalSalesData s) (salesData s) (loading s) (error s)
        (startDate s) (endDate s) (priceMin s) (email s) (phone s) (beforeToken s) v
        (currentPage s) (sortBy s) (sortOrder s)
  end.

(** The state after the queued setter calls, in call order. *)
Definition commit {number : Type} (s : State number) (us : list (SetState number))
  : State number :=
  fold_left apply_update us s.

(** The values the loading flag takes while the queued calls are applied,
    starting from [b]. *)
Fixpoint loading_trace {number : Type} (b : bool) (us : list (SetState number))
  : list bool :=
  match us with
  | [] => []
  | setLoading v :: us' => v :: loading_trace v us'
  | _ :: us' => b :: loading_trace b us'
  end.

(** A handler run on the state [s] it closed over, with an empty queue;
    the state of the next render and the world it leaves. *)
Definition dispatch {number : Type} (handler : State number -> M unit)
  (s : State number) (w : World number) : State number * World number :=
  let w0 := mkWorld (now w) (tokenCache w) (dataCache w) (server w) (requests w) [] in
  let w' := snd (handler s w0) in
  (commit s (pending w'), w').

(** ** src/lib/api.ts *)

Module Api.
Section Api.
Context {number : Type}.

(** [fetchSalesData(token, params)]: a parameter is appended only when
    its value is truthy. *)
Definition searchParams_of (params : object) : list (string * string) :=
  fold_left
    (fun searchParams kv =>
       if truthy (snd kv)
       then (searchParams ++ [(fst kv, or_else (snd kv) EmptyString)])%list
       else searchParams)
    params [].

Definition fetchSalesData (token : string) (params : object)
  : M (option (SalesResponse number)) :=
  let searchParams := searchParams_of params in
  let! response := fetch (GET_sales token searchParams)
                         (fun srv => sales srv token searchParams) in
  if negb (ok response)
  then throw FailedToFetch
  else response_json response.

(** [getAuthToken()] of src/lib/api.ts: no cache in front of the call. *)
Definition getAuthToken : M (number := number) string :=
  let! response := fetch POST_getAuthorize authorize in
  if negb (ok response)
  then throw AuthorizationFailed
  else
    let! data := response_json response in
    ret (token data).

End Api.
End Api.

(** ** components/SalesDashboard.tsx *)

Inductive Direction : Type := next | prev.

Module Dashboard.
Section Dashboard.
Context {number : Type}.

Definition TOKEN_CACHE_KEY : string := "auth_token".

(** [getAuthToken()] *)
Definition getAuthToken : M (number := number) string :=
  let! cachedToken := tokenCache_get TOKEN_CACHE_KEY in
  if truthy cachedToken
  then ret (or_else cachedToken EmptyString)
  else
    let! response := fetch POST_getAuthorize authorize in
    if negb (ok response)
    then throw AuthorizationFailed
    else
      let! data := response_json response in
      tokenCache_set TOKEN_CACHE_KEY (token data) >>
      ret (token data).

(** [fetchSalesData(token, params)]: every entry of [params] is
    appended, with the empty string for a falsy value. *)
Definition searchParams_of (params : object) : list (string * string) :=
  fold_left
    (fun searchParams kv =>
       (searchParams ++ [(fst kv, or_else (snd kv) EmptyString)])%list)
    params [].

Definition fetchSalesData (token : string) (params : object)
  : M (option (SalesResponse number)) :=
  let searchParams := searchParams_of params in
  let! response := fetch (GET_sales token searchParams)
                         (fun srv => sales srv token searchParams) in
  if negb (ok response)
  then
    let! errorText := response_text response in
    throw (FailedToFetchSalesData (status response) errorText)
  else
    let! data := response_json response in
    ret data.

(** [getCacheKey(filters)] *)
Definition getCacheKey (filters : object) : string :=
  JSON.stringify filters.

(** The object literal [filters] of [fetchSales]: the seven fields,
    then the two conditional spreads. *)
Definition filters_of (s : State number) (direction : option Direction) : object :=
  ([ ("startDate", Some (startDate s));
    ("endDate", Some (endDate s));
    ("priceMin", Some (priceMin s));
    ("email", Some (email s));
    ("phone", Some (phone s));
    ("sortBy", Some (sortBy s));
    ("sortOrder", Some (sortOrder s)) ]
  ++ (match direction with
      | Some next =>
          if truthy (Some (afterToken s)) then [("after", Some (afterToken s))] else []
      | _ => []
      end)
  ++ (match direction with
      | Some prev =>
          if truthy (Some (beforeToken s)) then [("before", Some (beforeToken s))] else []
      | _ => []
      end))%list.

Definition load_failed : string := "Failed to load sales data. Please try again.".

(** [fetchSales] from [setLoading(true)] on; [authToken] is the token
    that passed the guard. *)
Definition fetchSales_body (authToken : string) (s : State number)
  (direction : option Direction) : M unit :=
  call (setLoading true) >>
  call (setError None) >>
  let filters := filters_of s direction in
  let cacheKey := getCacheKey filters in
  let! cached := dataCache_get cacheKey in
  match cached with
  | Some cached =>
      call (setTotalSalesData (or_nil (chain (results cached) TotalSales))) >>
      call (setSalesData (or_nil (chain (results cached) Sales))) >>
      call (setBeforeToken (or_else (chain (pagination cached) before) EmptyString)) >>
      call (setAfterToken (or_else (chain (pagination cached) after) EmptyString)) >>
      call (setLoading false)
  | None =>
      try_finally
        (try_catch
           (let! data := fetchSalesData authToken filters in
            match data with
            | None => throw InvalidResponseFromServer
            | Some data =>
                match results data with
                | None => throw InvalidResponseFromServer
                | Some data_results =>
                    let totalSales := or_nil (TotalSales data_results) in
                    let sales := or_nil (Sales data_results) in
                    let beforePagination :=
                      or_else (chain (pagination data) before) EmptyString in
                    let afterPagination :=
                      or_else (chain (pagination data) after) EmptyString in
                    call (setTotalSalesData totalSales) >>
                    call (setSalesData sales) >>
                    call (setBeforeToken beforePagination) >>
                    call (setAfterToken afterPagination) >>
                    dataCache_set cacheKey data
                end
            end)
           (fun err => call (setError (Some load_failed))))
        (call (setLoading false))
  end.

(** [fetchSales(direction)] as closed over the state [s]. *)
Definition fetchSales (s : State number) (direction : option Direction) : M unit :=
  if negb (truthy (authToken s))
  then ret tt
  else fetchSales_body (or_else (authToken s) EmptyString) s direction.

(** One run of [fetchSales] and the render that follows it. *)
Definition fetch_and_render (s : State number) (direction : option Direction)
  (w : World number) : State number * World number :=
  dispatch (fun s0 => fetchSales s0 direction) s w.

End Dashboard.
End Dashboard.

(** ** The dashboard variant that validates the date range

    Its cache, [getAuthToken], [fetchSalesData] and [getCacheKey] are those
    of [Dashboard]; [fetchSales] has one more guard. *)

Module ValidatedDashboard.
Section ValidatedDashboard.
Context {number : Type}.

(** [isDateRangeValid] *)
Definition isDateRangeValid (s : State number) : bool :=
  negb (truthy (Some (startDate s)))
  || negb (truthy (Some (endDate s)))
  || js_le (startDate s) (endDate s).

Definition invalid_range : string :=
  "Please select a valid date range (start date must be before or equal to end date)".

Definition fetchSales (s : State number) (direction : option Direction) : M unit :=
  if negb (truthy (authToken s))
  then ret tt
  else if negb (isDateRangeValid s)
  then call (setError (Some invalid_range))
  else Dashboard.fetchSales_body (or_else (authToken s) EmptyString) s direction.

Definition fetch_and_render (s : State number) (direction : option Direction)
  (w : World number) : State number * World number :=
  dispatch (fun s0 => fetchSales s0 direction) s w.

End ValidatedDashboard.
End ValidatedDashboard.

(** ** The handlers and effects around [fetchSales]

    The rest of the component in components/SalesDashboard.tsx (and its
    copy with the date check): the effect that authorizes on mount, the
    effect that reloads when a filter or the sort changes, the sort and
    paging handlers, and the flags handed to the table.  A handler is run
    on the state it closed over and gives the state of the next render; an
    updater function passed to a setter is run once, on the current
    value. *)

(** The world [delta] milliseconds later. *)
Definition later {number : Type} (delta : Z) (w : World number) : World number :=
  mkWorld (now w + delta) (tokenCache w) (dataCache w) (server w) (requests w) (pending w).

Module Handlers.
Section Handlers.
Context {number : Type}.

(** The writes of the setters that [fetchSales] does not call. *)
Definition with_authToken (v : option string) (s : State number) : State number :=
  mkState v (totalSalesData s) (salesData s) (loading s) (error s) (startDate s)
    (endDate s) (priceMin s) (email s) (phone s) (beforeToken s) (afterToken s)
    (currentPage s) (sortBy s) (sortOrder s).

Definition with_error (v : option string) (s : State number) : State number :=
  mkState (authToken s) (totalSalesData s) (salesData s) (loading s) v (startDate s)
    (endDate s) (priceMin s) (email s) (phone s) (beforeToken s) (afterToken s)
    (currentPage s) (sortBy s) (sortOrder s).

Definition with_currentPage (v : Z) (s : State number) : State number :=
  mkState (authToken s) (totalSalesData s) (salesData s) (loading s) (error s)
    (startDate s) (endDate s) (priceMin s) (email s) (phone s) (beforeToken s)
    (afterToken s) v (sortBy s) (sortOrder s).

Definition with_sort (by_ order : string) (s : State number) : State number :=
  mkState (authToken s) (totalSalesData s) (salesData s) (loading s) (error s)
    (startDate s) (endDate s) (priceMin s) (email s) (phone s) (beforeToken s)
    (afterToken s) (currentPage s) by_ order.

Definition authorize_failed : string := "Failed to authorize. Please refresh the page.".

(** The effect run on mount: [authorize()]. *)
Definition authorize (s : State number) (w : World number)
  : State number * World number :=
  match Dashboard.getAuthToken w with
  | (inr token, w') => (with_authToken (Some token) s, w')
  | (inl _, w') => (with_error (Some authorize_failed) s, w')
  end.

(** The effect on [authToken], the filters, the sort and [fetchSales]:
    page 1, both cursors cleared, then [fetchSales()]. *)
Definition reload (s : State number) (w : World number)
  : State number * World number :=
  if truthy (authToken s)
  then
    let r :=
      dispatch
        (fun s0 =>
           call (setBeforeToken EmptyString) >>
           call (setAfterToken EmptyString) >>
           Dashboard.fetchSales s0 None)
        s w in
    (with_currentPage 1 (fst r), snd r)
  else (s, w).

(** [handleSort(field)] *)
Definition handleSort (field : string) (s : State number) : State number :=
  with_currentPage 1
    (if String.eqb (sortBy s) field
     then with_sort field (if String.eqb (sortOrder s) "asc" then "desc" else "asc") s
     else with_sort field "asc" s).

(** [handleNext()] *)
Definition handleNext (s : State number) (w : World number)
  : State number * World number :=
  if truthy (Some (afterToken s))
  then
    let r := Dashboard.fetch_and_render s (Some next) w in
    (with_currentPage (currentPage s + 1) (fst r), snd r)
  else (s, w).

(** [handlePrevious()] *)
Definition handlePrevious (s : State number) (w : World number)
  : State number * World number :=
  if truthy (Some (beforeToken s)) && (1 <? currentPage s)
  then
    let r := Dashboard.fetch_and_render s (Some prev) w in
    (with_currentPage (currentPage s - 1) (fst r), snd r)
  else (s, w).

(** [hasNextPage] and [hasPreviousPage] as handed to [SalesTable]. *)
Definition hasNextPage (s : State number) : bool :=
  truthy (Some (afterToken s)).

Definition hasPreviousPage (s : State number) : bool :=
  truthy (Some (beforeToken s)) && (1 <? currentPage s).

(** [disabled] of the Previous button where the table is inline:
    [!beforeToken || currentPage === 1]. *)
Definition previous_disabled (s : State number) : bool :=
  negb (truthy (Some (beforeToken s))) || (currentPage s =? 1).

(** [isDisabled] of the Refresh button in FiltersSection.tsx, with the
    props the validating dashboard passes. *)
Definition isDisabled (s : State number) : bool :=
  loading s || negb (ValidatedDashboard.isDateRangeValid s).

End Handlers.
End Handlers.

(** ** The dashboard variant built on [useSWR]

    Its token check and the parameters of its sales URL.  The cursors sent
    are the state fields [after] and [before]; [paginationData] holds the
    cursors of the last response. *)

Module SwrDashboard.

Record State : Type := mkState {
  token : option string;
  startDate : string;
  endDate : string;
  priceMin : string;
  email : string;
  phone : string;
  sortBy : string;
  sortOrder : string;
  after : string;
  before : string;
  paginationData_after : option string;
  paginationData_before : option string
}.

Definition oneHour : Z := 60 * 60 * 1000.

(** [isTokenExpired(timestamp)] read at clock value [now]. *)
Definition isTokenExpired (now timestamp : Z) : bool :=
  oneHour <? now - timestamp.

(** The entries of [paramsObj] in [buildSalesUrl], in the order they are
    written; [None] when there is no token. *)
Definition buildSalesUrl (s : State) : option (list (string * string)) :=
  if negb (truthy (token s))
  then None
  else
    Some
      ([ ("startDate", startDate s);
         ("endDate", endDate s);
         ("priceMin", or_else (Some (priceMin s)) EmptyString);
         ("email", or_else (Some (email s)) EmptyString);
         ("phone", or_else (Some (phone s)) EmptyString);
         ("sortBy", sortBy s);
         ("sortOrder", sortOrder s) ]
       ++ (if truthy (Some (before s))
           then [("before", before s); ("after", EmptyString)]
           else if truthy (Some (after s))
           then [("after", after s); ("before", EmptyString)]
           else [("after", EmptyString); ("before", EmptyString)]))%list.

Definition with_sort (by_ order : string) (s : State) : State :=
  mkState (token s) (startDate s) (endDate s) (priceMin s) (email s) (phone s)
    by_ order (after s) (before s) (paginationData_after s) (paginationData_before s).

Definition with_cursors (a b : string) (s : State) : State :=
  mkState (token s) (startDate s) (endDate s) (priceMin s) (email s) (phone s)
    (sortBy s) (sortOrder s) a b (paginationData_after s) (paginationData_before s).

(** [handleSort(column)] *)
Definition handleSort (column : string) (s : State) : State :=
  with_cursors EmptyString EmptyString
    (if String.eqb (sortBy s) column
     then with_sort (sortBy s) (if String.eqb (sortOrder s) "asc" then "desc" else "asc") s
     else with_sort column "asc" s).

(** [handleNextPage()] *)
Definition handleNextPage (s : State) : State :=
  if truthy (paginationData_after s)
  then with_cursors (or_else (paginationData_after s) EmptyString) EmptyString s
  else s.

(** [handlePrevPage()] *)
Definition handlePrevPage (s : State) : State :=
  if truthy (paginationData_before s)
  then with_cursors EmptyString (or_else (paginationData_before s) EmptyString) s
  else s.

(** [handleFilterChange()] *)
Definition handleFilterChange (s : State) : State :=
  with_cursors EmptyString EmptyString s.

End SwrDashboard.

(** ** Outcomes of the sales call

    The ways the sales call of [fetchSales] fails: the request itself
    fails or the status is not 2xx (a fetch error), or what comes back is
    not a sales response with a [results] field (a malformed response). *)

Inductive call_fails {number : Type}
  : FetchResult (option (SalesResponse number)) -> Prop :=
| fails_network :
    call_fails Rejected
| fails_status (r : Response (option (SalesResponse number))) :
    ok r = false -> call_fails (Resolved r)
| fails_not_json (r : Response (option (SalesResponse number))) :
    ok r = true -> json r = None -> call_fails (Resolved r)
| fails_null (r : Response (option (SalesResponse number))) :
    ok r = true -> json r = Some None -> call_fails (Resolved r)
| fails_no_results (r : Response (option (SalesResponse number)))
    (data : SalesResponse number) :
    ok r = true -> json r = Some (Some data) -> results data = None ->
    call_fails (Resolved r).

(** The setter calls that adopt a response. *)
Definition adopt {number : Type} (d : SalesResponse number) : list (SetState number) :=
  [ setTotalSalesData (or_nil (chain (results d) TotalSales));
    setSalesData (or_nil (chain (results d) Sales));
    setBeforeToken (or_else (chain (pagination d) before) EmptyString);
    setAfterToken (or_else (chain (pagination d) after) EmptyString) ].

(** ** Initial values and examples *)

(** [new Cache<string>(60 * 60 * 1000)] and
    [new Cache<SalesResponse>(60 * 60 * 1000)]. *)
Definition tokenCache_init : Cache.t string := Cache.new (60 * 60 * 1000).
Definition dataCache_init {number : Type} : Cache.t (SalesResponse number) :=
  Cache.new (60 * 60 * 1000).

(** The state of the first render once a token has arrived, and the same
    state two pages further on. *)
Definition example_state : State Z :=
  mkState (Some "secret") [] [] false None "2025-01-01" "2025-01-31"
          EmptyString EmptyString EmptyString EmptyString EmptyString 1 "date" "asc".

Definition example_state_page3 : State Z :=
  mkState (Some "secret") [] [] false None "2025-01-01" "2025-01-31"
          EmptyString EmptyString EmptyString "tok1" "tok3" 3 "date" "asc".

(** The state before a token has arrived. *)
Definition example_state_unauthorized : State Z :=
  mkState None [] [] false None "2025-01-01" "2025-01-31"
          EmptyString EmptyString EmptyString EmptyString EmptyString 1 "date" "asc".

(** An inverted date range, with and without a token. *)
Definition example_state_inverted : State Z :=
  mkState (Some "secret") [] [] false None "2025-02-01" "2025-01-01"
          EmptyString EmptyString EmptyString EmptyString EmptyString 1 "date" "asc".

Definition example_state_inverted_unauthorized : State Z :=
  mkState None [] [] false None "2025-02-01" "2025-01-01"
          EmptyString EmptyString EmptyString EmptyString EmptyString 1 "date" "asc".

(** No filter set at all. *)
Definition example_state_no_filters : State Z :=
  mkState (Some "secret") [] [] false None EmptyString EmptyString
          EmptyString EmptyString EmptyString EmptyString EmptyString 1 "date" "asc".

Definition example_response : SalesResponse Z :=
  mkSalesResponse
    (Some (mkResults
             (Some [mkTotalSale "2025-01-01" 500])
             (Some [mkSale "1" "2025-01-01T10:00:00Z" 500 "a@b.com" "+1" 0])))
    (Some (mkPagination (Some EmptyString) (Some "tok2"))).

(** A response with [results] but nothing inside it and no pagination. *)
Definition example_response_bare : SalesResponse Z :=
  mkSalesResponse (Some (mkResults None None)) None.

Definition example_server : Server Z :=
  mkServer
    (Resolved (mkResponse true 200 EmptyString (Some (mkAuthResponse "fresh" 3600))))
    (fun _ _ => Resolved (mkResponse true 200 EmptyString (Some (Some example_response))))
    5.

(** A server whose sales endpoint answers 500. *)
Definition example_server_down : Server Z :=
  mkServer
    (Resolved (mkResponse false 500 "down" None))
    (fun _ _ => Resolved (mkResponse false 500 "down" None))
    5.

(** A server whose sales endpoint answers with the bare response. *)
Definition example_server_bare : Server Z :=
  mkServer
    (Resolved (mkResponse true 200 EmptyString (Some (mkAuthResponse "fresh" 3600))))
    (fun _ _ => Resolved (mkResponse true 200 EmptyString (Some (Some example_response_bare))))
    5.

(** Nothing cached, nothing sent, at time 1000. *)
Definition example_world (srv : Server Z) : World Z :=
  mkWorld 1000 tokenCache_init dataCache_init srv [] [].

(** The token [tok] cached at time [stored], read at time [t]. *)
Definition example_world_token (tok : string) (stored t : Z) : World Z :=
  mkWorld t (Cache.set stored Dashboard.TOKEN_CACHE_KEY tok tokenCache_init)
          dataCache_init example_server [] [].

(** [example_response] cached at time 0 under the key of the first page,
    read at time 1000. *)
Definition example_world_cached : World Z :=
  mkWorld 1000 tokenCache_init
          (Cache.set 0 (Dashboard.getCacheKey (Dashboard.filters_of example_state None))
                     example_response dataCache_init)
          example_server [] [].

(** A state of the [useSWR] variant on its first page, the last response
    having offered a next page, and one holding both cursors. *)
Definition example_swr_state : SwrDashboard.State :=
  SwrDashboard.mkState (Some "secret") "2025-01-01" "2025-01-31"
    EmptyString EmptyString EmptyString "date" "asc"
    EmptyString EmptyString (Some "tok2") (Some EmptyString).

Definition example_swr_state_both : SwrDashboard.State :=
  SwrDashboard.mkState (Some "secret") "2025-01-01" "2025-01-31"
    EmptyString EmptyString EmptyString "date" "asc"
    "tok3" "tok1" (Some "tok3") (Some "tok1").

(** ** Reading a serialized key back

    Devices for showing that [JSON.stringify] loses nothing: the inverse
    of [JSON.escape_char] on the head of a string, the first value
    serialized under a name, and the text that follows a member. *)

Module Unquote.

Definition hex_value (c : ascii) : N :=
  let n := N_of_ascii c in
  if (n <? 58)%N then (n - 48)%N else (n - 87)%N.

Definition head (s : string) : option (ascii * string) :=
  match s with
  | EmptyString => None
  | String c rest =>
      if Ascii.eqb c JSON.dquote then None
      else if Ascii.eqb c JSON.backslash then
        match rest with
        | EmptyString => None
        | String e rest' =>
            if Ascii.eqb e "b" then Some ("008"%char, rest')
            else if Ascii.eqb e "t" then Some ("009"%char, rest')
            else if Ascii.eqb e "n" then Some ("010"%char, rest')
            else if Ascii.eqb e "f" then Some ("012"%char, rest')
            else if Ascii.eqb e "r" then Some ("013"%char, rest')
            else if Ascii.eqb e JSON.dquote then Some (JSON.dquote, rest')
            else if Ascii.eqb e JSON.backslash then Some (JSON.backslash, rest')
            else if Ascii.eqb e "u" then
              match rest' with
              | String _ (String _ (String h (String l r))) =>
                  Some (ascii_of_N (16 * hex_value h + hex_value l), r)
              | _ => None
              end
            else None
        end
      else Some (c, rest)
  end.

Fixpoint assoc (k : string) (l : list (string * string)) : option string :=
  match l with
  | [] => None
  | (k', v) :: l' => if String.eqb k' k then Some v else assoc k l'
  end.

Fixpoint closing (l : list (string * string)) : string :=
  match l with
  | [] => "}"
  | kv :: l' => "," ++ JSON.member kv ++ closing l'
  end.

End Unquote.

(** * Properties of the cache *)

Section CacheFacts.
Context {T : Type}.
Implicit Types (c : Cache.t T) (k : string) (v : T) (t : Z).

Lemma get_fresh c k t item :
  Cache.cache c !! k = Some item ->
  t - Cache.timestamp item < Cache.duration c ->
  Cache.get t k c = (Some (Cache.data item), c).
Proof.
  intros Hk Hlt. unfold Cache.get. rewrite Hk.
  destruct (Z.ltb_spec (t - Cache.timestamp item) (Cache.duration c)); [done | lia].
Qed.

Lemma get_stale c k t item :
  Cache.cache c !! k = Some item ->
  Cache.duration c <= t - Cache.timestamp item ->
  Cache.get t k c = (None, Cache.mk (delete k (Cache.cache c)) (Cache.duration c)).
Proof.
  intros Hk Hge. unfold Cache.get. rewrite Hk.
  destruct (Z.ltb_spec (t - Cache.timestamp item) (Cache.duration c)); [lia | done].
Qed.

Lemma get_missing c k t :
  Cache.cache c !! k = None ->
  Cache.get t k c = (None, Cache.mk (delete k (Cache.cache c)) (Cache.duration c)).
Proof. intros Hk. unfold Cache.get. now rewrite Hk. Qed.

(** A [get] that answers absent leaves no entry under the key. *)
Lemma get_absent_removed c k t :
  fst (Cache.get t k c) = None ->
  Cache.cache (snd (Cache.get t k c)) !! k = None.
Proof.
  unfold Cache.get. destruct (Cache.cache c !! k) as [item|] eqn:Hk.
  - destruct (t - Cache.timestamp item <? Cache.duration c); simpl; [done |].
    intros _. apply lookup_delete_eq.
  - simpl. intros _. apply lookup_delete_eq.
Qed.

Lemma get_duration c k t :
  Cache.duration (snd (Cache.get t k c)) = Cache.duration c.
Proof.
  unfold Cache.get. destruct (Cache.cache c !! k) as [item|]; [|done].
  now destruct (t - Cache.timestamp item <? Cache.duration c).
Qed.

Lemma has_get c k t :
  Cache.has t k c =
    (match fst (Cache.get t k c) with Some _ => true | None => false end,
     snd (Cache.get t k c)).
Proof. unfold Cache.has. now destruct (Cache.get t k c). Qed.

(** C7. A value stored by [set(k, v)] at time [stored] is returned by
    [get(k)] at every time strictly before [stored + duration], and
    [get(k)] answers absent at every time from [stored + duration] on. *)
Theorem set_get_within_ttl c k v stored t :
  (t < stored + Cache.duration c ->
     fst (Cache.get t k (Cache.set stored k v c)) = Some v)
  /\ (stored + Cache.duration c <= t ->
     fst (Cache.get t k (Cache.set stored k v c)) = None).
Proof.
  split; intros Ht.
  - rewrite (get_fresh _ _ _ (Cache.mkItem v stored)); [done | | simpl; lia].
    apply lookup_insert_eq.
  - rewrite (get_stale _ _ _ (Cache.mkItem v stored)); [done | | simpl; lia].
    apply lookup_insert_eq.
Qed.

(** C8. [has(k)] answers true exactly when [get(k)] returns a value and
    leaves the store as [get(k)] does; a [get(k)] that finds an expired
    entry deletes it, so that afterwards [has(k)] is false and [get(k)]
    is absent whatever the clock says. *)
Theorem has_is_get_and_expired_entry_is_deleted c k t :
  (fst (Cache.has t k c) = true <-> exists v, fst (Cache.get t k c) = Some v)
  /\ snd (Cache.has t k c) = snd (Cache.get t k c)
  /\ (forall item,
        Cache.cache c !! k = Some item ->
        Cache.duration c <= t - Cache.timestamp item ->
        fst (Cache.get t k c) = None
        /\ Cache.cache (snd (Cache.get t k c)) = delete k (Cache.cache c)
        /\ Cache.cache (snd (Cache.get t k c)) !! k = None
        /\ forall t',
             fst (Cache.has t' k (snd (Cache.get t k c))) = false
             /\ fst (Cache.get t' k (snd (Cache.get t k c))) = None).
Proof.
  rewrite has_get. simpl. split; [|split; [done|]].
  - destruct (fst (Cache.get t k c)) as [v|]; split.
    + intros _. now exists v.
    + reflexivity.
    + discriminate.
    + intros [v Hv]. discriminate.
  - intros item Hk Hexp. rewrite (get_stale _ _ _ _ Hk Hexp). simpl.
    split; [done | split; [done | split; [apply lookup_delete_eq|]]].
    intros t'. rewrite has_get. simpl.
    rewrite get_missing by (simpl; apply lookup_delete_eq). done.
Qed.

End CacheFacts.

(** * The cache key *)

Section KeyFacts.

Lemma append_assoc (a b c : string) : (a ++ b) ++ c = a ++ (b ++ c).
Proof. induction a as [|x a IH]; simpl; [done | now rewrite IH]. Qed.

Lemma head_escape_char (c : ascii) (r : string) :
  Unquote.head (JSON.escape_char c ++ r) = Some (c, r).
Proof. destruct c as [[] [] [] [] [] [] [] []]; reflexivity. Qed.

Lemma head_dquote (r : string) : Unquote.head (String JSON.dquote r) = None.
Proof. reflexivity. Qed.

(** The escaped text up to the closing quote determines the string. *)
Lemma escape_closed_inj (s1 : string) :
  forall s2 r1 r2,
    JSON.escape s1 ++ String JSON.dquote r1 = JSON.escape s2 ++ String JSON.dquote r2 ->
    s1 = s2 /\ r1 = r2.
Proof.
  induction s1 as [|c1 s1 IH]; intros [|c2 s2] r1 r2 H;
    cbn [JSON.escape] in H.
  - simpl in H. injection H as ->. done.
  - apply (f_equal Unquote.head) in H.
    change (EmptyString ++ String JSON.dquote r1) with (String JSON.dquote r1) in H.
    rewrite append_assoc, head_escape_char, head_dquote in H. discriminate.
  - apply (f_equal Unquote.head) in H.
    change (EmptyString ++ String JSON.dquote r2) with (String JSON.dquote r2) in H.
    rewrite append_assoc, head_escape_char, head_dquote in H. discriminate.
  - apply (f_equal Unquote.head) in H.
    rewrite !append_assoc, !head_escape_char in H.
    injection H as -> H. destruct (IH _ _ _ H) as [-> ->]. done.
Qed.

Lemma quote_inj (s1 s2 r1 r2 : string) :
  JSON.quote s1 ++ r1 = JSON.quote s2 ++ r2 -> s1 = s2 /\ r1 = r2.
Proof.
  unfold JSON.quote. simpl. rewrite !append_assoc. simpl.
  intros H. injection H as H. now apply escape_closed_inj.
Qed.

#[local] Arguments JSON.quote : simpl never.

Lemma string_tail_eq (a b : ascii) (s t : string) : String a s = String b t -> s = t.
Proof. now intros [= _ ->]. Qed.

Lemma member_inj (kv1 kv2 : string * string) (r1 r2 : string) :
  JSON.member kv1 ++ r1 = JSON.member kv2 ++ r2 -> kv1 = kv2 /\ r1 = r2.
Proof.
  destruct kv1 as [k1 v1], kv2 as [k2 v2]. unfold JSON.member. simpl fst. simpl snd.
  rewrite !append_assoc. intros H.
  apply quote_inj in H as [-> H]. simpl in H. apply string_tail_eq in H.
  apply quote_inj in H as [-> ->]. done.
Qed.

Lemma members_closing (kv : string * string) (l : list (string * string)) :
  JSON.members (kv :: l) ++ "}" = JSON.member kv ++ Unquote.closing l.
Proof.
  revert kv. induction l as [|kv' l IH]; intros kv; [done |].
  change (JSON.members (kv :: kv' :: l))
    with (JSON.member kv ++ "," ++ JSON.members (kv' :: l)).
  rewrite !append_assoc. rewrite IH. done.
Qed.

Lemma closing_inj (l1 : list (string * string)) :
  forall l2, Unquote.closing l1 = Unquote.closing l2 -> l1 = l2.
Proof.
  induction l1 as [|kv1 l1 IH]; intros [|kv2 l2] H; simpl in H; try done.
  apply string_tail_eq in H. apply member_inj in H as [-> H]. f_equal. now apply IH.
Qed.

Lemma stringify_closing (o : object) :
  JSON.stringify o =
    String "{" (match JSON.defined o with
                | [] => "}"
                | kv :: l => JSON.member kv ++ Unquote.closing l
                end).
Proof.
  unfold JSON.stringify. simpl. f_equal.
  destruct (JSON.defined o) as [|kv l]; [done | apply members_closing].
Qed.

(** [JSON.stringify] determines the serialized properties and their
    order. *)
Lemma stringify_inj (o1 o2 : object) :
  JSON.stringify o1 = JSON.stringify o2 -> JSON.defined o1 = JSON.defined o2.
Proof.
  rewrite !stringify_closing. intros H. apply string_tail_eq in H.
  destruct (JSON.defined o1) as [|kv1 l1], (JSON.defined o2) as [|kv2 l2].
  - done.
  - apply (f_equal Unquote.head) in H. unfold JSON.member, JSON.quote in H.
    simpl in H. discriminate.
  - apply (f_equal Unquote.head) in H. unfold JSON.member, JSON.quote in H.
    simpl in H. discriminate.
  - apply member_inj in H as [-> H]. f_equal. now apply closing_inj.
Qed.

End KeyFacts.

Section ObjectFacts.

Lemma assoc_defined_absent (k : string) (o : object) :
  k ∉ map fst o -> Unquote.assoc k (JSON.defined o) = None.
Proof.
  induction o as [|[k' [v|]] o IH]; simpl; intros Hk; [done | |];
    apply not_elem_of_cons in Hk as [Hne Hk].
  - destruct (String.eqb_spec k' k) as [->|_]; [done | now apply IH].
  - now apply IH.
Qed.

(** The read [o[k]] is the value serialized under [k]. *)
Lemma prop_defined (k : string) (o : object) :
  well_formed o -> prop k o = Unquote.assoc k (JSON.defined o).
Proof.
  unfold well_formed, prop.
  induction o as [|[k' v] o IH]; simpl; intros Hwf; [done |].
  inversion Hwf as [|? ? Hnotin Hwf']; subst.
  destruct (String.eqb_spec k' k) as [->|Hne].
  - destruct v as [v|]; simpl.
    + now rewrite String.eqb_refl.
    + symmetry. now apply assoc_defined_absent.
  - destruct v as [v|]; simpl.
    + destruct (String.eqb_spec k' k); [done | now apply IH].
    + now apply IH.
Qed.

Lemma key_determines_fields (o1 o2 : object) (k : string) :
  well_formed o1 -> well_formed o2 ->
  Dashboard.getCacheKey o1 = Dashboard.getCacheKey o2 ->
  prop k o1 = prop k o2.
Proof.
  intros H1 H2 Hkey. apply stringify_inj in Hkey.
  rewrite !prop_defined by assumption. now rewrite Hkey.
Qed.

(** The controller writes the fields of [filters] in one order, so two
    of its objects that agree field by field are the same object. *)
Lemma filters_of_fieldwise {number : Type} (s1 s2 : State number)
  (d1 d2 : option Direction) :
  fieldwise_equal (Dashboard.filters_of s1 d1) (Dashboard.filters_of s2 d2) ->
  Dashboard.filters_of s1 d1 = Dashboard.filters_of s2 d2.
Proof.
  unfold fieldwise_equal, Dashboard.filters_of. intros H.
  pose proof (H "startDate") as H1. pose proof (H "endDate") as H2.
  pose proof (H "priceMin") as H3. pose proof (H "email") as H4.
  pose proof (H "phone") as H5. pose proof (H "sortBy") as H6.
  pose proof (H "sortOrder") as H7. pose proof (H "after") as H8.
  pose proof (H "before") as H9. clear H.
  destruct d1 as [[]|], d2 as [[]|];
    repeat match goal with
           | |- context [truthy ?x] => destruct (truthy x)
           end;
    cbn in *; congruence.
Qed.

End ObjectFacts.

(** C1 (as the code has it).  The key follows the order in which the
    fields were written.  For the objects that [fetchSales] builds, always
    in the same order, agreeing field by field gives the same key; and any
    two objects that read differently at some field get different keys. *)
Theorem getCacheKey_fixed_order_faithful :
  (forall (number : Type) (s1 s2 : State number) (d1 d2 : option Direction),
      fieldwise_equal (Dashboard.filters_of s1 d1) (Dashboard.filters_of s2 d2) ->
      Dashboard.getCacheKey (Dashboard.filters_of s1 d1)
      = Dashboard.getCacheKey (Dashboard.filters_of s2 d2))
  /\ (forall (o1 o2 : object) (k : string),
        well_formed o1 -> well_formed o2 ->
        prop k o1 <> prop k o2 ->
        Dashboard.getCacheKey o1 <> Dashboard.getCacheKey o2).
Proof.
  split.
  - intros number s1 s2 d1 d2 H. now rewrite (filters_of_fieldwise _ _ _ _ H).
  - intros o1 o2 k H1 H2 Hne Hkey. apply Hne. now apply key_determines_fields.
Qed.

(** C1 as stated fails: two objects with the same fields, written in a
    different order, get different keys. *)
Lemma getCacheKey_depends_on_insertion_order :
  well_formed [("startDate", Some "2025-01-01"); ("endDate", Some "2025-01-31")]
  /\ well_formed [("endDate", Some "2025-01-31"); ("startDate", Some "2025-01-01")]
  /\ fieldwise_equal
       [("startDate", Some "2025-01-01"); ("endDate", Some "2025-01-31")]
       [("endDate", Some "2025-01-31"); ("startDate", Some "2025-01-01")]
  /\ Dashboard.getCacheKey
       [("startDate", Some "2025-01-01"); ("endDate", Some "2025-01-31")]
     <> Dashboard.getCacheKey
       [("endDate", Some "2025-01-31"); ("startDate", Some "2025-01-01")].
Proof.
  split; [|split; [|split]].
  - apply (bool_decide_unpack _). by vm_compute.
  - apply (bool_decide_unpack _). by vm_compute.
  - intros k. cbn [own].
    destruct (String.eqb_spec "startDate" k) as [<-|]; [reflexivity |].
    destruct (String.eqb_spec "endDate" k) as [<-|]; reflexivity.
  - vm_compute. discriminate.
Qed.

Lemma getCacheKey_fixed_order_faithful_witness :
  Dashboard.getCacheKey (Dashboard.filters_of example_state None)
  = Dashboard.getCacheKey (Dashboard.filters_of example_state_page3 None)
  /\ Dashboard.getCacheKey [("startDate", Some "2025-01-01")]
     <> Dashboard.getCacheKey [("startDate", Some "2025-01-02")].
Proof.
  split.
  - apply (proj1 getCacheKey_fixed_order_faithful Z example_state example_state_page3).
    intros k. reflexivity.
  - apply (proj2 getCacheKey_fixed_order_faithful _ _ "startDate").
    + apply (bool_decide_unpack _). vm_compute. reflexivity.
    + apply (bool_decide_unpack _). vm_compute. reflexivity.
    + vm_compute. discriminate.
Defined.

(** * The controller *)

Section ControllerFacts.
Context {number : Type}.
Implicit Types (s : State number) (w : World number) (d : option Direction).

Lemma searchParams_of_map (params : object) :
  Dashboard.searchParams_of params
  = map (fun kv => (fst kv, or_else (snd kv) EmptyString)) params.
Proof.
  unfold Dashboard.searchParams_of.
  enough (G : forall acc,
             fold_left
               (fun searchParams kv =>
                  (searchParams ++ [(fst kv, or_else (snd kv) EmptyString)])%list)
               params acc
             = (acc ++ map (fun kv => (fst kv, or_else (snd kv) EmptyString)) params)%list)
    by apply (G []).
  induction params as [|kv params IH]; intros acc; simpl.
  - now rewrite app_nil_r.
  - rewrite IH, <- app_assoc. done.
Qed.

Lemma truthy_or_else (v : option string) :
  truthy v = true -> v = Some (or_else v EmptyString).
Proof. destruct v as [x|]; simpl; [|done]. now destruct (String.eqb x EmptyString). Qed.

Lemma truthy_nonempty (x : string) : truthy (Some x) = true <-> x <> EmptyString.
Proof.
  simpl. destruct (String.eqb_spec x EmptyString) as [->|Hne]; simpl; split; try done.
Qed.

(** The cache answers: the cached response is adopted and nothing is
    sent. *)
Lemma body_hit (tok : string) s d w (item : Cache.CacheItem (SalesResponse number)) :
  Cache.cache (dataCache w) !! Dashboard.getCacheKey (Dashboard.filters_of s d)
    = Some item ->
  now w - Cache.timestamp item < Cache.duration (dataCache w) ->
  Dashboard.fetchSales_body tok s d w
  = (inr tt,
     mkWorld (now w) (tokenCache w) (dataCache w) (server w) (requests w)
       (pending w
        ++ [setLoading true; setError None]
        ++ adopt (Cache.data item)
        ++ [setLoading false])).
Proof.
  intros Hk Hfresh.
  unfold Dashboard.fetchSales_body, bind, call, dataCache_get. simpl.
  rewrite (get_fresh _ _ _ _ Hk Hfresh). simpl.
  rewrite <- !app_assoc. simpl. unfold chain. done.
Qed.

(** The cache does not answer and the call fails: one request, the
    error message, nothing else touched. *)
Lemma body_miss_fails (tok : string) s d w :
  fst (Cache.get (now w) (Dashboard.getCacheKey (Dashboard.filters_of s d)) (dataCache w))
    = None ->
  call_fails (sales (server w) tok (Dashboard.searchParams_of (Dashboard.filters_of s d))) ->
  Dashboard.fetchSales_body tok s d w
  = (inr tt,
     mkWorld (now w + latency (server w)) (tokenCache w)
       (snd (Cache.get (now w) (Dashboard.getCacheKey (Dashboard.filters_of s d))
               (dataCache w)))
       (server w)
       (requests w
        ++ [GET_sales tok (Dashboard.searchParams_of (Dashboard.filters_of s d))])
       (pending w
        ++ [setLoading true; setError None;
            setError (Some Dashboard.load_failed); setLoading false])).
Proof.
  intros Hmiss Hfail.
  unfold Dashboard.fetchSales_body, bind, call, dataCache_get. simpl.
  destruct (Cache.get _ _ _) as [r c'] eqn:Hget. simpl in Hmiss. subst r. simpl.
  unfold try_finally, try_catch, Dashboard.fetchSalesData, bind, fetch,
    response_text, response_json, throw, ret, call. simpl.
  inversion Hfail as [Heq | r Hok Heq | r Hok Hjson Heq | r Hok Hjson Heq
                      | r data Hok Hjson Hres Heq]; simpl;
    try rewrite Hok; simpl; try rewrite Hjson; simpl; try rewrite Hres; simpl;
    rewrite <- !app_assoc; done.
Qed.

(** The cache does not answer and a response with [results] arrives:
    one request, the response adopted and stored under the key. *)
Lemma body_miss_good (tok : string) s d w
  (r : Response (option (SalesResponse number))) (data : SalesResponse number)
  (rs : Results number) :
  fst (Cache.get (now w) (Dashboard.getCacheKey (Dashboard.filters_of s d)) (dataCache w))
    = None ->
  sales (server w) tok (Dashboard.searchParams_of (Dashboard.filters_of s d))
    = Resolved r ->
  ok r = true -> json r = Some (Some data) -> results data = Some rs ->
  Dashboard.fetchSales_body tok s d w
  = (inr tt,
     mkWorld (now w + latency (server w)) (tokenCache w)
       (Cache.set (now w + latency (server w))
          (Dashboard.getCacheKey (Dashboard.filters_of s d)) data
          (snd (Cache.get (now w) (Dashboard.getCacheKey (Dashboard.filters_of s d))
                  (dataCache w))))
       (server w)
       (requests w
        ++ [GET_sales tok (Dashboard.searchParams_of (Dashboard.filters_of s d))])
       (pending w
        ++ [setLoading true; setError None]
        ++ adopt data
        ++ [setLoading false])).
Proof.
  intros Hmiss Hsrv Hok Hjson Hres.
  unfold Dashboard.fetchSales_body, bind, call, dataCache_get. simpl.
  destruct (Cache.get _ _ _) as [r0 c'] eqn:Hget. simpl in Hmiss. subst r0. simpl.
  unfold try_finally, try_catch, Dashboard.fetchSalesData, bind, fetch,
    response_text, response_json, throw, ret, call, dataCache_set. simpl.
  rewrite Hsrv. simpl. rewrite Hok. simpl. rewrite Hjson. simpl. rewrite Hres. simpl.
  rewrite <- !app_assoc. done.
Qed.

End ControllerFacts.

Section FetchSales.
Context {number : Type}.
Implicit Types (s : State number) (w : World number) (d : option Direction).

Lemma js_gt_not_le (a b : string) : js_gt a b = true <-> js_le a b = false.
Proof.
  unfold js_gt, js_le, String.ltb, String.leb.
  rewrite (String.compare_antisym a b).
  destruct (String.compare b a); simpl; split; congruence.
Qed.

(** C2 (as the code has it).  With a token in the state and the key of
    the current parameters present and unexpired in the data cache,
    [fetchSales] adopts totals, rows and both cursors from the cached
    response, sends nothing, leaves both caches alone, and the loading
    flag is false at the next render: [setLoading(true)] and
    [setLoading(false)] are queued in the same run. *)
Theorem fetchSales_cache_hit s d w (item : Cache.CacheItem (SalesResponse number)) :
  truthy (authToken s) = true ->
  Cache.cache (dataCache w) !! Dashboard.getCacheKey (Dashboard.filters_of s d)
    = Some item ->
  now w - Cache.timestamp item < Cache.duration (dataCache w) ->
  totalSalesData (fst (Dashboard.fetch_and_render s d w))
    = or_nil (chain (results (Cache.data item)) TotalSales)
  /\ salesData (fst (Dashboard.fetch_and_render s d w))
    = or_nil (chain (results (Cache.data item)) Sales)
  /\ beforeToken (fst (Dashboard.fetch_and_render s d w))
    = or_else (chain (pagination (Cache.data item)) before) EmptyString
  /\ afterToken (fst (Dashboard.fetch_and_render s d w))
    = or_else (chain (pagination (Cache.data item)) after) EmptyString
  /\ requests (snd (Dashboard.fetch_and_render s d w)) = requests w
  /\ dataCache (snd (Dashboard.fetch_and_render s d w)) = dataCache w
  /\ tokenCache (snd (Dashboard.fetch_and_render s d w)) = tokenCache w
  /\ loading (fst (Dashboard.fetch_and_render s d w)) = false
  /\ pending (snd (Dashboard.fetch_and_render s d w))
    = ([setLoading true; setError None] ++ adopt (Cache.data item)
       ++ [setLoading false])%list.
Proof.
  intros Htok Hk Hfresh.
  unfold Dashboard.fetch_and_render, dispatch, Dashboard.fetchSales.
  rewrite Htok. cbn [negb].
  rewrite (body_hit _ _ _ _ item) by assumption. simpl. done.
Qed.

(** C5. With a token and no answer from the cache, a sales call that
    fails leaves rows, totals and both cursors as they were, sets the
    error message and leaves the loading flag false; one request was
    sent. *)
Theorem fetchSales_failure_keeps_data s d w :
  truthy (authToken s) = true ->
  fst (Cache.get (now w) (Dashboard.getCacheKey (Dashboard.filters_of s d)) (dataCache w))
    = None ->
  call_fails (sales (server w) (or_else (authToken s) EmptyString)
                (Dashboard.searchParams_of (Dashboard.filters_of s d))) ->
  salesData (fst (Dashboard.fetch_and_render s d w)) = salesData s
  /\ totalSalesData (fst (Dashboard.fetch_and_render s d w)) = totalSalesData s
  /\ beforeToken (fst (Dashboard.fetch_and_render s d w)) = beforeToken s
  /\ afterToken (fst (Dashboard.fetch_and_render s d w)) = afterToken s
  /\ error (fst (Dashboard.fetch_and_render s d w)) = Some Dashboard.load_failed
  /\ loading (fst (Dashboard.fetch_and_render s d w)) = false
  /\ requests (snd (Dashboard.fetch_and_render s d w))
     = (requests w
        ++ [GET_sales (or_else (authToken s) EmptyString)
              (Dashboard.searchParams_of (Dashboard.filters_of s d))])%list.
Proof.
  intros Htok Hmiss Hfail.
  unfold Dashboard.fetch_and_render, dispatch, Dashboard.fetchSales.
  rewrite Htok. cbn [negb].
  rewrite body_miss_fails by assumption. simpl. done.
Qed.

End FetchSales.

Section FetchSalesResponses.
Context {number : Type}.
Implicit Types (s : State number) (w : World number) (d : option Direction).

(** C10. A 2xx JSON response that has [results] is adopted whatever
    else is missing: absent [TotalSales] or [Sales] become empty arrays
    and an absent [pagination] (or cursor) becomes empty strings, with no
    error; a body that is [null] or has no [results] is the one that is
    refused, with the error message set and the displayed data kept. *)
Theorem fetchSales_missing_parts_default s d w
  (r : Response (option (SalesResponse number)))
  (body : option (SalesResponse number)) :
  truthy (authToken s) = true ->
  fst (Cache.get (now w) (Dashboard.getCacheKey (Dashboard.filters_of s d)) (dataCache w))
    = None ->
  sales (server w) (or_else (authToken s) EmptyString)
    (Dashboard.searchParams_of (Dashboard.filters_of s d)) = Resolved r ->
  ok r = true ->
  json r = Some body ->
  (forall (data : SalesResponse number) (rs : Results number),
      body = Some data -> results data = Some rs ->
      totalSalesData (fst (Dashboard.fetch_and_render s d w)) = or_nil (TotalSales rs)
      /\ salesData (fst (Dashboard.fetch_and_render s d w)) = or_nil (Sales rs)
      /\ beforeToken (fst (Dashboard.fetch_and_render s d w))
         = or_else (chain (pagination data) before) EmptyString
      /\ afterToken (fst (Dashboard.fetch_and_render s d w))
         = or_else (chain (pagination data) after) EmptyString
      /\ error (fst (Dashboard.fetch_and_render s d w)) = None
      /\ loading (fst (Dashboard.fetch_and_render s d w)) = false
      /\ (TotalSales rs = None ->
          totalSalesData (fst (Dashboard.fetch_and_render s d w)) = [])
      /\ (Sales rs = None ->
          salesData (fst (Dashboard.fetch_and_render s d w)) = [])
      /\ (pagination data = None ->
          beforeToken (fst (Dashboard.fetch_and_render s d w)) = EmptyString
          /\ afterToken (fst (Dashboard.fetch_and_render s d w)) = EmptyString))
  /\ (body = None \/ (exists data, body = Some data /\ results data = None) ->
      error (fst (Dashboard.fetch_and_render s d w)) = Some Dashboard.load_failed
      /\ totalSalesData (fst (Dashboard.fetch_and_render s d w)) = totalSalesData s
      /\ salesData (fst (Dashboard.fetch_and_render s d w)) = salesData s
      /\ beforeToken (fst (Dashboard.fetch_and_render s d w)) = beforeToken s
      /\ afterToken (fst (Dashboard.fetch_and_render s d w)) = afterToken s).
Proof.
  intros Htok Hmiss Hsrv Hok Hjson.
  unfold Dashboard.fetch_and_render, dispatch, Dashboard.fetchSales.
  rewrite Htok. cbn [negb]. split.
  - intros data rs -> Hres.
    rewrite (body_miss_good _ _ _ _ r data rs) by assumption.
    simpl. rewrite Hres. simpl.
    repeat split; try done; try (now intros ->);
      match goal with
      | H : pagination data = None |- _ => now rewrite H
      end.
  - intros Hbad.
    rewrite body_miss_fails; [simpl; done | assumption |].
    simpl. rewrite Hsrv.
    destruct Hbad as [-> | (data & -> & Hres)].
    + now apply fails_null.
    + now apply (fails_no_results r data).
Qed.

Lemma get_Some_inv {T : Type} (c : Cache.t T) (k : string) (t : Z) (v : T) :
  fst (Cache.get t k c) = Some v ->
  exists item,
    Cache.cache c !! k = Some item
    /\ t - Cache.timestamp item < Cache.duration c
    /\ Cache.data item = v.
Proof.
  unfold Cache.get. destruct (Cache.cache c !! k) as [item|]; [|done].
  destruct (Z.ltb_spec (t - Cache.timestamp item) (Cache.duration c)); [|done].
  simpl. intros [= <-]. now exists item.
Qed.

Lemma reply_cases (fr : FetchResult (option (SalesResponse number))) :
  call_fails fr
  \/ exists r data rs,
       fr = Resolved r /\ ok r = true /\ json r = Some (Some data)
       /\ results data = Some rs.
Proof.
  destruct fr as [|r]; [left; constructor |].
  destruct (ok r) eqn:Hok; [|left; now apply fails_status].
  destruct (json r) as [[data|]|] eqn:Hjson.
  - destruct (results data) as [rs|] eqn:Hres.
    + right. now exists r, data, rs.
    + left. now apply (fails_no_results r data).
  - left. now apply fails_null.
  - left. now apply fails_not_json.
Qed.

(** A run of [fetchSales] sends nothing, or the one sales request built
    from [filters]. *)
Lemma fetchSales_requests s d w :
  requests (snd (Dashboard.fetchSales s d w)) = requests w
  \/ requests (snd (Dashboard.fetchSales s d w))
     = (requests w
        ++ [GET_sales (or_else (authToken s) EmptyString)
              (Dashboard.searchParams_of (Dashboard.filters_of s d))])%list.
Proof.
  unfold Dashboard.fetchSales. destruct (truthy (authToken s)); [|now left].
  cbn [negb].
  destruct (fst (Cache.get (now w) (Dashboard.getCacheKey (Dashboard.filters_of s d))
                   (dataCache w))) as [v|] eqn:Hget.
  - apply get_Some_inv in Hget as (item & Hk & Hfresh & _).
    rewrite (body_hit _ _ _ _ item) by assumption. now left.
  - destruct (reply_cases (sales (server w) (or_else (authToken s) EmptyString)
                             (Dashboard.searchParams_of (Dashboard.filters_of s d))))
      as [Hfail | (r & data & rs & Hsrv & Hok & Hjson & Hres)].
    + rewrite body_miss_fails by assumption. now right.
    + rewrite (body_miss_good _ _ _ _ r data rs) by assumption. now right.
Qed.

(** C9. The [filters] object of a fetch, and so the query of the request
    it sends, holds [after] exactly when the direction is next and the
    after cursor is non-empty, [before] exactly when the direction is
    prev and the before cursor is non-empty, neither when there is no
    direction, and never both. *)
Theorem fetchSales_one_cursor_at_most s d w :
  (has_own "after" (Dashboard.filters_of s d) = true
     <-> d = Some next /\ afterToken s <> EmptyString)
  /\ (has_own "before" (Dashboard.filters_of s d) = true
     <-> d = Some prev /\ beforeToken s <> EmptyString)
  /\ has_own "after" (Dashboard.filters_of s None) = false
  /\ has_own "before" (Dashboard.filters_of s None) = false
  /\ ~ (has_own "after" (Dashboard.filters_of s d) = true
        /\ has_own "before" (Dashboard.filters_of s d) = true)
  /\ map fst (Dashboard.searchParams_of (Dashboard.filters_of s d))
     = map fst (Dashboard.filters_of s d)
  /\ (requests (snd (Dashboard.fetchSales s d w)) = requests w
      \/ requests (snd (Dashboard.fetchSales s d w))
         = (requests w
            ++ [GET_sales (or_else (authToken s) EmptyString)
                  (Dashboard.searchParams_of (Dashboard.filters_of s d))])%list).
Proof.
  assert (Hafter : has_own "after" (Dashboard.filters_of s d) = true
                   <-> d = Some next /\ afterToken s <> EmptyString).
  { rewrite <- truthy_nonempty. unfold Dashboard.filters_of.
    destruct d as [[]|];
      repeat match goal with
             | |- context [if truthy ?x then _ else _] => destruct (truthy x)
             end;
      cbn; intuition congruence. }
  assert (Hbefore : has_own "before" (Dashboard.filters_of s d) = true
                    <-> d = Some prev /\ beforeToken s <> EmptyString).
  { rewrite <- truthy_nonempty. unfold Dashboard.filters_of.
    destruct d as [[]|];
      repeat match goal with
             | |- context [if truthy ?x then _ else _] => destruct (truthy x)
             end;
      cbn; intuition congruence. }
  split; [exact Hafter | split; [exact Hbefore |]].
  split; [reflexivity | split; [reflexivity |]].
  split; [| split].
  - rewrite Hafter, Hbefore. intros [[-> _] [[=] _]].
  - rewrite searchParams_of_map, map_map. done.
  - apply fetchSales_requests.
Qed.

End FetchSalesResponses.

Section DateRange.
Context {number : Type}.
Implicit Types (s : State number) (w : World number) (d : option Direction).

Lemma inverted_range_invalid s :
  startDate s <> EmptyString -> endDate s <> EmptyString ->
  js_gt (startDate s) (endDate s) = true ->
  ValidatedDashboard.isDateRangeValid s = false.
Proof.
  intros Hs He Hgt. unfold ValidatedDashboard.isDateRangeValid.
  apply truthy_nonempty in Hs, He. rewrite Hs, He.
  apply js_gt_not_le in Hgt. now rewrite Hgt.
Qed.

(** With a valid range the validating [fetchSales] is the plain one. *)
Lemma valid_range_same_fetch s d :
  ValidatedDashboard.isDateRangeValid s = true ->
  ValidatedDashboard.fetchSales s d = Dashboard.fetchSales s d.
Proof.
  intros Hv. unfold ValidatedDashboard.fetchSales, Dashboard.fetchSales.
  now rewrite Hv.
Qed.

(** So that what is shown of [Dashboard.fetchSales] (cache hit, failure,
    cursors, defaults) holds of the validating variant whenever the range
    is valid. *)
Lemma valid_range_same_render s d w :
  ValidatedDashboard.isDateRangeValid s = true ->
  ValidatedDashboard.fetch_and_render s d w = Dashboard.fetch_and_render s d w.
Proof.
  intros Hv. unfold ValidatedDashboard.fetch_and_render, Dashboard.fetch_and_render, dispatch.
  now rewrite (valid_range_same_fetch s d Hv).
Qed.

(** The variant that has the date check.  In the dashboard that validates
    the date range, with a token in the state and both dates set,
    [startDate > endDate] makes [fetchSales] set the validation message,
    send nothing and leave totals, rows, cursors, the loading flag and
    both caches as they were. *)
Theorem fetchSales_refuses_inverted_range s d w :
  truthy (authToken s) = true ->
  startDate s <> EmptyString -> endDate s <> EmptyString ->
  js_gt (startDate s) (endDate s) = true ->
  error (fst (ValidatedDashboard.fetch_and_render s d w))
    = Some ValidatedDashboard.invalid_range
  /\ requests (snd (ValidatedDashboard.fetch_and_render s d w)) = requests w
  /\ totalSalesData (fst (ValidatedDashboard.fetch_and_render s d w)) = totalSalesData s
  /\ salesData (fst (ValidatedDashboard.fetch_and_render s d w)) = salesData s
  /\ beforeToken (fst (ValidatedDashboard.fetch_and_render s d w)) = beforeToken s
  /\ afterToken (fst (ValidatedDashboard.fetch_and_render s d w)) = afterToken s
  /\ loading (fst (ValidatedDashboard.fetch_and_render s d w)) = loading s
  /\ dataCache (snd (ValidatedDashboard.fetch_and_render s d w)) = dataCache w
  /\ tokenCache (snd (ValidatedDashboard.fetch_and_render s d w)) = tokenCache w.
Proof.
  intros Htok Hs He Hgt.
  unfold ValidatedDashboard.fetch_and_render, dispatch, ValidatedDashboard.fetchSales.
  rewrite Htok, (inverted_range_invalid s Hs He Hgt). simpl. done.
Qed.

End DateRange.

(** * The token *)

Section Token.
Context {number : Type}.
Implicit Types (w : World number).

Lemma getAuthToken_cached w (item : Cache.CacheItem string) :
  Cache.cache (tokenCache w) !! Dashboard.TOKEN_CACHE_KEY = Some item ->
  now w - Cache.timestamp item < Cache.duration (tokenCache w) ->
  Cache.data item <> EmptyString ->
  Dashboard.getAuthToken w = (inr (Cache.data item), w).
Proof.
  intros Hk Hfresh Hne. apply truthy_nonempty in Hne.
  unfold Dashboard.getAuthToken, bind, tokenCache_get.
  rewrite (get_fresh _ _ _ _ Hk Hfresh). rewrite Hne.
  unfold ret, or_else. rewrite Hne. now destruct w.
Qed.

Lemma getAuthToken_stale w (item : Cache.CacheItem string) :
  Cache.cache (tokenCache w) !! Dashboard.TOKEN_CACHE_KEY = Some item ->
  Cache.duration (tokenCache w) <= now w - Cache.timestamp item ->
  Dashboard.getAuthToken w
  = let w' :=
      mkWorld (now w + latency (server w))
        (Cache.mk (delete Dashboard.TOKEN_CACHE_KEY (Cache.cache (tokenCache w)))
                  (Cache.duration (tokenCache w)))
        (dataCache w) (server w) (requests w ++ [POST_getAuthorize]) (pending w) in
    match authorize (server w) with
    | Rejected => (inl FetchFailed, w')
    | Resolved r =>
        if ok r
        then match json r with
             | Some a =>
                 (inr (token a),
                  mkWorld (now w') (Cache.set (now w') Dashboard.TOKEN_CACHE_KEY (token a)
                                      (tokenCache w'))
                          (dataCache w') (server w') (requests w') (pending w'))
             | None => (inl JsonFailed, w')
             end
        else (inl AuthorizationFailed, w')
    end.
Proof.
  intros Hk Hstale.
  unfold Dashboard.getAuthToken, bind, tokenCache_get.
  rewrite (get_stale _ _ _ _ Hk Hstale). simpl.
  unfold fetch. simpl.
  destruct (authorize (server w)) as [|r]; [done |].
  destruct (ok r); simpl; [|done].
  unfold response_json. destruct (json r) as [a|]; done.
Qed.

(** C6 (as the code has it).  A non-empty token cached less than the
    cache's duration ago is returned without any request and without
    touching anything.  A token cached at least the duration ago makes
    exactly one authorization request, and when that request succeeds
    the token it returns is the result and is what the cache then holds,
    stamped with the time of its arrival. *)
Theorem getAuthToken_fresh_or_refetched w (item : Cache.CacheItem string) :
  Cache.cache (tokenCache w) !! Dashboard.TOKEN_CACHE_KEY = Some item ->
  (now w - Cache.timestamp item < Cache.duration (tokenCache w) ->
   Cache.data item <> EmptyString ->
   Dashboard.getAuthToken w = (inr (Cache.data item), w))
  /\ (Cache.duration (tokenCache w) <= now w - Cache.timestamp item ->
      requests (snd (Dashboard.getAuthToken w))
        = (requests w ++ [POST_getAuthorize])%list
      /\ forall (r : Response (AuthResponse number)) (a : AuthResponse number),
          authorize (server w) = Resolved r -> ok r = true -> json r = Some a ->
          fst (Dashboard.getAuthToken w) = inr (token a)
          /\ Cache.cache (tokenCache (snd (Dashboard.getAuthToken w)))
               !! Dashboard.TOKEN_CACHE_KEY
             = Some (Cache.mkItem (token a) (now w + latency (server w)))).
Proof.
  intros Hk. split.
  - intros Hfresh Hne. now apply getAuthToken_cached.
  - intros Hstale. rewrite (getAuthToken_stale w item Hk Hstale). cbn zeta. split.
    + destruct (authorize (server w)) as [|r]; [done |].
      destruct (ok r); [|done]. destruct (json r); done.
    + intros r a -> -> ->. simpl. split; [done | apply lookup_insert_eq].
Qed.

End Token.

(** * The query string *)

Section QueryString.
Context {number : Type}.
Implicit Types (w : World number).

(** The dashboard's own [fetchSalesData] sends every field of [params],
    a falsy value as the empty string. *)
Lemma dashboard_fetchSalesData_sends_every_field (tok : string) (params : object) w :
  requests (snd (Dashboard.fetchSalesData tok params w))
  = (requests w
     ++ [GET_sales tok (map (fun kv => (fst kv, or_else (snd kv) EmptyString)) params)])%list.
Proof.
  unfold Dashboard.fetchSalesData, bind, fetch. rewrite searchParams_of_map. cbn zeta.
  destruct (sales (server w) tok _) as [|r]; [done |].
  destruct (ok r); simpl; [|done].
  unfold response_json. destruct (json r); done.
Qed.

Lemma api_searchParams_of_filter (params : object) :
  Api.searchParams_of params
  = map (fun kv => (fst kv, or_else (snd kv) EmptyString))
        (List.filter (fun kv => truthy (snd kv)) params).
Proof.
  unfold Api.searchParams_of.
  enough (G : forall acc,
             fold_left
               (fun searchParams kv =>
                  if truthy (snd kv)
                  then (searchParams ++ [(fst kv, or_else (snd kv) EmptyString)])%list
                  else searchParams)
               params acc
             = (acc ++ map (fun kv => (fst kv, or_else (snd kv) EmptyString))
                           (List.filter (fun kv => truthy (snd kv)) params))%list)
    by apply (G []).
  induction params as [|kv params IH]; intros acc; simpl.
  - now rewrite app_nil_r.
  - rewrite IH. destruct (truthy (snd kv)); simpl; [|done].
    now rewrite <- app_assoc.
Qed.

(** [fetchSalesData] of src/lib/api.ts sends the truthy fields only. *)
Lemma api_fetchSalesData_request (tok : string) (params : object) w :
  requests (snd (Api.fetchSalesData tok params w))
  = (requests w
     ++ [GET_sales tok
           (map (fun kv => (fst kv, or_else (snd kv) EmptyString))
                (List.filter (fun kv => truthy (snd kv)) params))])%list.
Proof.
  unfold Api.fetchSalesData, bind, fetch. rewrite api_searchParams_of_filter. cbn zeta.
  destruct (sales (server w) tok _) as [|r]; [done |].
  destruct (ok r); simpl; [|done].
  unfold response_json. destruct (json r); done.
Qed.

End QueryString.

(** C4 (where the code departs from it).  [fetchSalesData] of
    src/lib/api.ts puts into the query the fields whose value is truthy
    and no others; given the parameters of a fetch with no filter set, the
    query holds [sortBy] and [sortOrder] only, and the five empty fields
    are left out of the request. *)
Theorem api_fetchSalesData_drops_empty_fields :
  (forall (number : Type) (tok : string) (params : object) (w : World number),
      requests (snd (Api.fetchSalesData tok params w))
      = (requests w
         ++ [GET_sales tok
               (map (fun kv => (fst kv, or_else (snd kv) EmptyString))
                    (List.filter (fun kv => truthy (snd kv)) params))])%list)
  /\ requests
       (snd (Api.fetchSalesData "secret"
               [ ("startDate", Some EmptyString); ("endDate", Some EmptyString);
                 ("priceMin", Some EmptyString); ("email", Some EmptyString);
                 ("phone", Some EmptyString); ("sortBy", Some "date");
                 ("sortOrder", Some "asc") ]
               (example_world example_server)))
     = [GET_sales "secret" [("sortBy", "date"); ("sortOrder", "asc")]].
Proof.
  split.
  - intros number tok params w. apply api_fetchSalesData_request.
  - reflexivity.
Qed.

(** The same parameters through the dashboard's own [fetchSalesData]:
    all seven fields are in the query. *)
Example dashboard_fetchSalesData_no_filters :
  requests
    (snd (Dashboard.fetchSalesData "secret"
            (Dashboard.filters_of example_state_no_filters None)
            (example_world example_server)))
  = [GET_sales "secret"
       [ ("startDate", EmptyString); ("endDate", EmptyString);
         ("priceMin", EmptyString); ("email", EmptyString); ("phone", EmptyString);
         ("sortBy", "date"); ("sortOrder", "asc") ]].
Proof. reflexivity. Qed.

(** * The claims at concrete inputs *)

Lemma set_get_within_ttl_witness :
  fst (Cache.get 1800000 "auth_token"
         (Cache.set 0 "auth_token" "secret" tokenCache_init)) = Some "secret"
  /\ fst (Cache.get 3600000 "auth_token"
            (Cache.set 0 "auth_token" "secret" tokenCache_init)) = None.
Proof.
  split.
  - apply (proj1 (set_get_within_ttl tokenCache_init "auth_token" "secret" 0 1800000)).
    cbn. lia.
  - apply (proj2 (set_get_within_ttl tokenCache_init "auth_token" "secret" 0 3600000)).
    cbn. lia.
Defined.

Lemma has_is_get_and_expired_entry_is_deleted_witness :
  fst (Cache.get 3660000 "auth_token"
         (Cache.set 0 "auth_token" "secret" tokenCache_init)) = None
  /\ fst (Cache.has 0 "auth_token"
            (snd (Cache.get 3660000 "auth_token"
                    (Cache.set 0 "auth_token" "secret" tokenCache_init)))) = false.
Proof.
  destruct (has_is_get_and_expired_entry_is_deleted
              (Cache.set 0 "auth_token" "secret" tokenCache_init) "auth_token" 3660000)
    as (_ & _ & H).
  destruct (H (Cache.mkItem "secret" 0)) as (Hget & _ & _ & Hafter).
  - vm_compute. reflexivity.
  - cbn. lia.
  - split; [exact Hget | exact (proj1 (Hafter 0))].
Defined.

(** C2 as stated fails: the key is cached and unexpired, the state holds
    no token, and [fetchSales] returns at its first guard without adopting
    the cached rows and totals; and with a token, the calls queued on a
    cache hit set the loading flag to true before they set it to false. *)
Lemma cached_key_without_token_not_adopted :
  Cache.cache (dataCache example_world_cached)
    !! Dashboard.getCacheKey (Dashboard.filters_of example_state_unauthorized None)
  = Some (Cache.mkItem example_response 0)
  /\ now example_world_cached - 0 < Cache.duration (dataCache example_world_cached)
  /\ salesData (fst (Dashboard.fetch_and_render example_state_unauthorized None
                       example_world_cached)) = []
  /\ salesData (fst (Dashboard.fetch_and_render example_state_unauthorized None
                       example_world_cached))
     <> or_nil (chain (results example_response) Sales)
  /\ totalSalesData (fst (Dashboard.fetch_and_render example_state_unauthorized None
                            example_world_cached))
     <> or_nil (chain (results example_response) TotalSales)
  /\ afterToken (fst (Dashboard.fetch_and_render example_state_unauthorized None
                        example_world_cached))
     <> or_else (chain (pagination example_response) after) EmptyString
  /\ loading_trace (loading example_state)
       (pending (snd (Dashboard.fetch_and_render example_state None example_world_cached)))
     = [true; true; true; true; true; true; false].
Proof.
  split; [vm_compute; reflexivity |].
  split; [cbn; lia |].
  split; [reflexivity |].
  split; [vm_compute; discriminate |].
  split; [vm_compute; discriminate |].
  split; [vm_compute; discriminate |].
  vm_compute. reflexivity.
Qed.

Lemma fetchSales_cache_hit_witness :
  salesData (fst (Dashboard.fetch_and_render example_state None example_world_cached))
  = [mkSale "1" "2025-01-01T10:00:00Z" 500 "a@b.com" "+1" 0]
  /\ afterToken (fst (Dashboard.fetch_and_render example_state None example_world_cached))
     = "tok2"
  /\ requests (snd (Dashboard.fetch_and_render example_state None example_world_cached))
     = []
  /\ loading (fst (Dashboard.fetch_and_render example_state None example_world_cached))
     = false.
Proof.
  destruct (fetchSales_cache_hit example_state None example_world_cached
              (Cache.mkItem example_response 0))
    as (_ & Hrows & _ & Hafter & Hreq & _ & _ & Hload & _).
  - reflexivity.
  - vm_compute. reflexivity.
  - cbn. lia.
  - split; [exact Hrows | split; [exact Hafter | split; [exact Hreq | exact Hload]]].
Defined.

(** An inverted range is not always refused: with no token the
    validating [fetchSales] returns without a message; and the
    [fetchSales] of SalesDashboard.tsx, which has no date check, sends the
    request. *)
Lemma fetchSales_inverted_range_not_always_refused :
  (js_gt (startDate example_state_inverted_unauthorized)
         (endDate example_state_inverted_unauthorized) = true
   /\ error (fst (ValidatedDashboard.fetch_and_render example_state_inverted_unauthorized
                    None (example_world example_server))) = None)
  /\ (js_gt (startDate example_state_inverted) (endDate example_state_inverted) = true
      /\ requests (snd (Dashboard.fetch_and_render example_state_inverted None
                          (example_world example_server)))
         = [GET_sales "secret"
              [ ("startDate", "2025-02-01"); ("endDate", "2025-01-01");
                ("priceMin", EmptyString); ("email", EmptyString);
                ("phone", EmptyString); ("sortBy", "date"); ("sortOrder", "asc") ]]
      /\ error (fst (Dashboard.fetch_and_render example_state_inverted None
                       (example_world example_server))) = None).
Proof. repeat split; vm_compute; reflexivity. Qed.

Lemma fetchSales_refuses_inverted_range_witness :
  error (fst (ValidatedDashboard.fetch_and_render example_state_inverted None
                (example_world example_server)))
  = Some ValidatedDashboard.invalid_range
  /\ requests (snd (ValidatedDashboard.fetch_and_render example_state_inverted None
                      (example_world example_server))) = [].
Proof.
  destruct (fetchSales_refuses_inverted_range example_state_inverted None
              (example_world example_server))
    as (Herr & Hreq & _).
  - reflexivity.
  - discriminate.
  - discriminate.
  - reflexivity.
  - split; [exact Herr | exact Hreq].
Defined.

Lemma fetchSales_failure_keeps_data_witness :
  salesData (fst (Dashboard.fetch_and_render example_state_page3 (Some next)
                    (example_world example_server_down)))
  = salesData example_state_page3
  /\ afterToken (fst (Dashboard.fetch_and_render example_state_page3 (Some next)
                        (example_world example_server_down))) = "tok3"
  /\ error (fst (Dashboard.fetch_and_render example_state_page3 (Some next)
                   (example_world example_server_down)))
     = Some Dashboard.load_failed
  /\ loading (fst (Dashboard.fetch_and_render example_state_page3 (Some next)
                     (example_world example_server_down))) = false.
Proof.
  destruct (fetchSales_failure_keeps_data example_state_page3 (Some next)
              (example_world example_server_down))
    as (Hrows & _ & _ & Hafter & Herr & Hload & _).
  - reflexivity.
  - vm_compute. reflexivity.
  - simpl. apply fails_status. reflexivity.
  - split; [exact Hrows | split; [exact Hafter | split; [exact Herr | exact Hload]]].
Defined.

(** C6 as stated fails: an empty token cached one second ago is not used;
    one authorization request is made and its token returned. *)
Lemma getAuthToken_empty_token_not_used :
  Cache.cache (tokenCache (example_world_token EmptyString 0 1000))
    !! Dashboard.TOKEN_CACHE_KEY
  = Some (Cache.mkItem EmptyString 0)
  /\ now (example_world_token EmptyString 0 1000) - 0
     < Cache.duration (tokenCache (example_world_token EmptyString 0 1000))
  /\ Cache.duration (tokenCache (example_world_token EmptyString 0 1000)) = 60 * 60 * 1000
  /\ requests (snd (Dashboard.getAuthToken (example_world_token EmptyString 0 1000)))
     = [POST_getAuthorize]
  /\ fst (Dashboard.getAuthToken (example_world_token EmptyString 0 1000)) = inr "fresh".
Proof.
  split; [vm_compute; reflexivity |].
  split; [cbn; lia |].
  repeat split; vm_compute; reflexivity.
Qed.

Lemma getAuthToken_fresh_or_refetched_witness :
  (* cached 30 minutes ago *)
  Dashboard.getAuthToken (example_world_token "secret" 0 1800000)
  = (inr "secret", example_world_token "secret" 0 1800000)
  (* cached 61 minutes ago *)
  /\ requests (snd (Dashboard.getAuthToken (example_world_token "secret" 0 3660000)))
     = [POST_getAuthorize]
  /\ fst (Dashboard.getAuthToken (example_world_token "secret" 0 3660000)) = inr "fresh"
  /\ Cache.cache (tokenCache (snd (Dashboard.getAuthToken
                                     (example_world_token "secret" 0 3660000))))
       !! Dashboard.TOKEN_CACHE_KEY
     = Some (Cache.mkItem "fresh" 3660005).
Proof.
  split.
  - apply (proj1 (getAuthToken_fresh_or_refetched
                    (example_world_token "secret" 0 1800000)
                    (Cache.mkItem "secret" 0) ltac:(vm_compute; reflexivity))).
    + cbn. lia.
    + discriminate.
  - destruct (proj2 (getAuthToken_fresh_or_refetched
                       (example_world_token "secret" 0 3660000)
                       (Cache.mkItem "secret" 0) ltac:(vm_compute; reflexivity)))
      as (Hreq & Hnew).
    + cbn. lia.
    + split; [exact Hreq |].
      exact (Hnew (mkResponse true 200 EmptyString (Some (mkAuthResponse "fresh" 3600)))
                  (mkAuthResponse "fresh" 3600) eq_refl eq_refl eq_refl).
Defined.

Lemma fetchSales_missing_parts_default_witness :
  totalSalesData (fst (Dashboard.fetch_and_render example_state_page3 None
                         (example_world example_server_bare))) = []
  /\ salesData (fst (Dashboard.fetch_and_render example_state_page3 None
                       (example_world example_server_bare))) = []
  /\ beforeToken (fst (Dashboard.fetch_and_render example_state_page3 None
                         (example_world example_server_bare))) = EmptyString
  /\ afterToken (fst (Dashboard.fetch_and_render example_state_page3 None
                        (example_world example_server_bare))) = EmptyString
  /\ error (fst (Dashboard.fetch_and_render example_state_page3 None
                   (example_world example_server_bare))) = None.
Proof.
  destruct (fetchSales_missing_parts_default example_state_page3 None
              (example_world example_server_bare)
              (mkResponse true 200 EmptyString (Some (Some example_response_bare)))
              (Some example_response_bare))
    as (Hgood & _).
  - reflexivity.
  - vm_compute. reflexivity.
  - reflexivity.
  - reflexivity.
  - reflexivity.
  - destruct (Hgood example_response_bare (mkResults None None) eq_refl eq_refl)
      as (_ & _ & _ & _ & Herr & _ & Htotals & Hrows & Hcursors).
    destruct (Hcursors eq_refl) as (Hb & Ha).
    split; [exact (Htotals eq_refl) |].
    split; [exact (Hrows eq_refl) |].
    split; [exact Hb | split; [exact Ha | exact Herr]].
Defined.

(** * Further properties of the cache *)

Section CacheMore.
Context {T : Type}.
Implicit Types (c : Cache.t T) (k : string) (v : T) (t : Z).

(** X1. [set(k, v)] does not change what [get] answers for another key,
    at any time. *)
Theorem set_keeps_other_keys c k k' v stored t :
  k <> k' ->
  fst (Cache.get t k' (Cache.set stored k v c)) = fst (Cache.get t k' c).
Proof.
  intros Hne. unfold Cache.get, Cache.set. simpl.
  rewrite lookup_insert_ne by assumption.
  destruct (Cache.cache c !! k') as [item|]; [|done].
  now destruct (t - Cache.timestamp item <? Cache.duration c).
Qed.

(** X2. [get] returns a value only for an entry that is stored and
    younger than the duration, and such a [get] leaves the cache as it
    was. *)
Theorem get_returns_only_fresh c k t v :
  fst (Cache.get t k c) = Some v ->
  (exists item,
      Cache.cache c !! k = Some item
      /\ Cache.data item = v
      /\ t - Cache.timestamp item < Cache.duration c)
  /\ snd (Cache.get t k c) = c.
Proof.
  unfold Cache.get. destruct (Cache.cache c !! k) as [item|] eqn:Hk; [|done].
  destruct (Z.ltb_spec (t - Cache.timestamp item) (Cache.duration c)); [|done].
  simpl. intros [= <-]. split; [now exists item | done].
Qed.

(** X3. Whatever [get(k)] does to the store, the entries under the other
    keys stay, expired or not: eviction reaches the key that was read and
    no other. *)
Theorem get_keeps_other_keys c k k' t :
  k <> k' ->
  Cache.cache (snd (Cache.get t k c)) !! k' = Cache.cache c !! k'
  /\ forall t', fst (Cache.get t' k' (snd (Cache.get t k c))) = fst (Cache.get t' k' c).
Proof.
  intros Hne.
  assert (Hk' : Cache.cache (snd (Cache.get t k c)) !! k' = Cache.cache c !! k').
  { unfold Cache.get. destruct (Cache.cache c !! k) as [item|].
    - destruct (t - Cache.timestamp item <? Cache.duration c); simpl; [done |].
      now apply lookup_delete_ne.
    - simpl. now apply lookup_delete_ne. }
  split; [exact Hk' |].
  intros t'. unfold Cache.get at 1 3. rewrite Hk', get_duration.
  destruct (Cache.cache c !! k') as [item|]; [|done].
  now destruct (t' - Cache.timestamp item <? Cache.duration c).
Qed.

(** X4. A second [set] on a key replaces the entry and restarts its
    clock: the first value and its time are forgotten. *)
Theorem set_overwrites c k v1 v2 t1 t2 t :
  Cache.set t2 k v2 (Cache.set t1 k v1 c) = Cache.set t2 k v2 c
  /\ (t - t2 < Cache.duration c ->
      fst (Cache.get t k (Cache.set t2 k v2 (Cache.set t1 k v1 c))) = Some v2)
  /\ (Cache.duration c <= t - t2 ->
      fst (Cache.get t k (Cache.set t2 k v2 (Cache.set t1 k v1 c))) = None).
Proof.
  assert (Heq : Cache.set t2 k v2 (Cache.set t1 k v1 c) = Cache.set t2 k v2 c).
  { unfold Cache.set. simpl. now rewrite insert_insert_eq. }
  rewrite Heq. split; [done |]. split; intros Ht.
  - rewrite (get_fresh _ _ _ (Cache.mkItem v2 t2)); [done | apply lookup_insert_eq | done].
  - rewrite (get_stale _ _ _ (Cache.mkItem v2 t2)); [done | apply lookup_insert_eq | done].
Qed.

(** X5. After [clear()] every key is absent at every time, fresh entries
    included, and the cache keeps its duration: a value set afterwards is
    served as in a new cache. *)
Theorem clear_forgets_everything c k k' v stored t :
  fst (Cache.get t k (Cache.clear (Cache.set stored k v c))) = None
  /\ fst (Cache.has t k' (Cache.clear c)) = false
  /\ Cache.duration (Cache.clear c) = Cache.duration c
  /\ (t - stored < Cache.duration c ->
      fst (Cache.get t k (Cache.set stored k v (Cache.clear c))) = Some v).
Proof.
  split; [| split; [| split]].
  - now rewrite get_missing by apply lookup_empty.
  - rewrite has_get. now rewrite get_missing by apply lookup_empty.
  - done.
  - intros Ht.
    rewrite (get_fresh _ _ _ (Cache.mkItem v stored)); [done | apply lookup_insert_eq | done].
Qed.

End CacheMore.

Lemma set_keeps_other_keys_witness :
  fst (Cache.get 10 "b" (Cache.set 5 "a" "x" (Cache.set 0 "b" "y" tokenCache_init)))
  = fst (Cache.get 10 "b" (Cache.set 0 "b" "y" tokenCache_init)).
Proof. apply set_keeps_other_keys. discriminate. Defined.

Lemma get_returns_only_fresh_witness :
  snd (Cache.get 10 "a" (Cache.set 0 "a" "x" tokenCache_init))
  = Cache.set 0 "a" "x" tokenCache_init.
Proof.
  apply (proj2 (get_returns_only_fresh (Cache.set 0 "a" "x" tokenCache_init) "a" 10 "x"
                  ltac:(vm_compute; reflexivity))).
Defined.

Lemma get_keeps_other_keys_witness :
  Cache.cache (snd (Cache.get 3600000 "a"
                      (Cache.set 0 "a" "x" (Cache.set 0 "b" "y" tokenCache_init)))) !! "b"
  = Cache.cache (Cache.set 0 "a" "x" (Cache.set 0 "b" "y" tokenCache_init)) !! "b".
Proof.
  apply (proj1 (get_keeps_other_keys
                  (Cache.set 0 "a" "x" (Cache.set 0 "b" "y" tokenCache_init))
                  "a" "b" 3600000 ltac:(discriminate))).
Defined.

Lemma set_overwrites_witness :
  fst (Cache.get 3600001 "a" (Cache.set 2 "a" "new" (Cache.set 0 "a" "old" tokenCache_init)))
  = Some "new".
Proof.
  apply (proj1 (proj2 (set_overwrites tokenCache_init "a" "old" "new" 0 2 3600001))).
  cbn. lia.
Defined.

Lemma clear_forgets_everything_witness :
  fst (Cache.get 1 "a" (Cache.set 0 "a" "x" (Cache.clear tokenCache_init))) = Some "x".
Proof.
  apply (proj2 (proj2 (proj2 (clear_forgets_everything tokenCache_init "a" "a" "x" 0 1)))).
  cbn. lia.
Defined.

(** * Further properties of the cache key *)

(** X6. Two objects get the same key exactly when they serialize the same
    properties in the same order; a property whose value is [undefined] is
    not part of the key. *)
Theorem getCacheKey_equal_iff (o1 o2 : object) :
  Dashboard.getCacheKey o1 = Dashboard.getCacheKey o2
  <-> JSON.defined o1 = JSON.defined o2.
Proof.
  split.
  - apply stringify_inj.
  - intros H. unfold Dashboard.getCacheKey, JSON.stringify. now rewrite H.
Qed.

(** X7. The pages of one query never share a cache entry: with a
    non-empty cursor, the key of a next or previous fetch differs from the
    key of the fetch without direction, and the keys of a next and of a
    previous fetch differ from each other. *)
Theorem pages_have_distinct_keys {number : Type} (s : State number) :
  (afterToken s <> EmptyString ->
   Dashboard.getCacheKey (Dashboard.filters_of s (Some next))
   <> Dashboard.getCacheKey (Dashboard.filters_of s None))
  /\ (beforeToken s <> EmptyString ->
      Dashboard.getCacheKey (Dashboard.filters_of s (Some prev))
      <> Dashboard.getCacheKey (Dashboard.filters_of s None))
  /\ (afterToken s <> EmptyString -> beforeToken s <> EmptyString ->
      Dashboard.getCacheKey (Dashboard.filters_of s (Some next))
      <> Dashboard.getCacheKey (Dashboard.filters_of s (Some prev))).
Proof.
  split; [| split].
  - intros Ha H. apply truthy_nonempty in Ha. apply stringify_inj in H.
    unfold Dashboard.filters_of in H. rewrite Ha in H. cbn in H. discriminate.
  - intros Hb H. apply truthy_nonempty in Hb. apply stringify_inj in H.
    unfold Dashboard.filters_of in H. rewrite Hb in H. cbn in H. discriminate.
  - intros Ha Hb H. apply truthy_nonempty in Ha, Hb. apply stringify_inj in H.
    unfold Dashboard.filters_of in H. rewrite Ha, Hb in H. cbn in H. discriminate.
Qed.

Lemma pages_have_distinct_keys_witness :
  Dashboard.getCacheKey (Dashboard.filters_of example_state_page3 (Some next))
  <> Dashboard.getCacheKey (Dashboard.filters_of example_state_page3 (Some prev)).
Proof.
  apply (proj2 (proj2 (pages_have_distinct_keys example_state_page3))); discriminate.
Defined.

(** * Further properties of the token *)

Section TokenMore.
Context {number : Type}.
Implicit Types (w : World number).

(** When the cache has no usable token, [getAuthToken] asks the server. *)
Lemma getAuthToken_refetch w :
  truthy (fst (Cache.get (now w) Dashboard.TOKEN_CACHE_KEY (tokenCache w))) = false ->
  Dashboard.getAuthToken w
  = let w' :=
      mkWorld (now w + latency (server w))
        (snd (Cache.get (now w) Dashboard.TOKEN_CACHE_KEY (tokenCache w)))
        (dataCache w) (server w) (requests w ++ [POST_getAuthorize]) (pending w) in
    match authorize (server w) with
    | Rejected => (inl FetchFailed, w')
    | Resolved r =>
        if ok r
        then match json r with
             | Some a =>
                 (inr (token a),
                  mkWorld (now w') (Cache.set (now w') Dashboard.TOKEN_CACHE_KEY (token a)
                                      (tokenCache w'))
                          (dataCache w') (server w') (requests w') (pending w'))
             | None => (inl JsonFailed, w')
             end
        else (inl AuthorizationFailed, w')
    end.
Proof.
  intros Hno. unfold Dashboard.getAuthToken, bind, tokenCache_get.
  destruct (Cache.get _ _ _) as [r0 c'] eqn:Hget. simpl in Hno. rewrite Hno. simpl.
  unfold fetch. simpl.
  destruct (authorize (server w)) as [|r]; [done |].
  destruct (ok r); simpl; [|done].
  unfold response_json. destruct (json r) as [a|]; done.
Qed.

(** After a [get] that gave no usable token, no later [get] on what it
    left gives one either. *)
Lemma no_usable_token_stays (c : Cache.t string) (k : string) (t t' : Z) :
  truthy (fst (Cache.get t k c)) = false ->
  truthy (fst (Cache.get t' k (snd (Cache.get t k c)))) = false.
Proof.
  unfold Cache.get at 1 3. destruct (Cache.cache c !! k) as [item|] eqn:Hk.
  - destruct (t - Cache.timestamp item <? Cache.duration c); simpl.
    + intros Hempty. unfold Cache.get. rewrite Hk.
      now destruct (t' - Cache.timestamp item <? Cache.duration c).
    + intros _. now rewrite get_missing by (simpl; apply lookup_delete_eq).
  - simpl. intros _. now rewrite get_missing by (simpl; apply lookup_delete_eq).
Qed.

(** X8. When the cache has no usable token and the authorization answers
    with a non-2xx status, [getAuthToken] throws after that one request
    and stores nothing: at no later time does the cache hold a usable
    token, so the next call asks the server again. *)
Theorem getAuthToken_failure_stores_nothing w (r : Response (AuthResponse number)) :
  truthy (fst (Cache.get (now w) Dashboard.TOKEN_CACHE_KEY (tokenCache w))) = false ->
  authorize (server w) = Resolved r ->
  ok r = false ->
  fst (Dashboard.getAuthToken w) = inl AuthorizationFailed
  /\ requests (snd (Dashboard.getAuthToken w)) = (requests w ++ [POST_getAuthorize])%list
  /\ dataCache (snd (Dashboard.getAuthToken w)) = dataCache w
  /\ forall t,
       truthy (fst (Cache.get t Dashboard.TOKEN_CACHE_KEY
                      (tokenCache (snd (Dashboard.getAuthToken w))))) = false.
Proof.
  intros Hno Hsrv Hok. rewrite (getAuthToken_refetch w Hno). cbn zeta.
  rewrite Hsrv, Hok. simpl. repeat split.
  intros t. now apply no_usable_token_stays.
Qed.

(** X9. Once [getAuthToken] has fetched a non-empty token, a call made
    less than the duration later returns that token, sends nothing and
    changes nothing. *)
Theorem getAuthToken_second_call_is_cached w (r : Response (AuthResponse number))
  (a : AuthResponse number) (delta : Z) :
  truthy (fst (Cache.get (now w) Dashboard.TOKEN_CACHE_KEY (tokenCache w))) = false ->
  authorize (server w) = Resolved r ->
  ok r = true ->
  json r = Some a ->
  token a <> EmptyString ->
  delta < Cache.duration (tokenCache w) ->
  fst (Dashboard.getAuthToken w) = inr (token a)
  /\ Dashboard.getAuthToken (later delta (snd (Dashboard.getAuthToken w)))
     = (inr (token a), later delta (snd (Dashboard.getAuthToken w))).
Proof.
  intros Hno Hsrv Hok Hjson Hne Hdelta. rewrite (getAuthToken_refetch w Hno). cbn zeta.
  rewrite Hsrv, Hok, Hjson. simpl. split; [done |].
  apply (getAuthToken_cached _ (Cache.mkItem (token a) (now w + latency (server w)))).
  - simpl. apply lookup_insert_eq.
  - simpl. rewrite get_duration. lia.
  - exact Hne.
Qed.

(** X10. [getAuthToken] of src/lib/api.ts sends one authorization request
    on every call and touches neither cache; its result is the result of
    the dashboard's [getAuthToken] whenever the dashboard's cache has no
    usable token. *)
Theorem api_getAuthToken_always_asks w :
  requests (snd (Api.getAuthToken w)) = (requests w ++ [POST_getAuthorize])%list
  /\ tokenCache (snd (Api.getAuthToken w)) = tokenCache w
  /\ dataCache (snd (Api.getAuthToken w)) = dataCache w
  /\ requests (snd (Api.getAuthToken (snd (Api.getAuthToken w))))
     = (requests w ++ [POST_getAuthorize; POST_getAuthorize])%list
  /\ (truthy (fst (Cache.get (now w) Dashboard.TOKEN_CACHE_KEY (tokenCache w))) = false ->
      fst (Api.getAuthToken w) = fst (Dashboard.getAuthToken w)).
Proof.
  assert (Hshape : forall w0 : World number,
             requests (snd (Api.getAuthToken w0)) = (requests w0 ++ [POST_getAuthorize])%list
             /\ tokenCache (snd (Api.getAuthToken w0)) = tokenCache w0
             /\ dataCache (snd (Api.getAuthToken w0)) = dataCache w0).
  { intros w0. unfold Api.getAuthToken, bind, fetch.
    destruct (authorize (server w0)) as [|r]; [done |].
    destruct (ok r); simpl; [|done].
    unfold response_json. destruct (json r); done. }
  destruct (Hshape w) as (Hreq & Htc & Hdc).
  split; [exact Hreq | split; [exact Htc | split; [exact Hdc | split]]].
  - destruct (Hshape (snd (Api.getAuthToken w))) as (Hreq2 & _ & _).
    rewrite Hreq2, Hreq, <- app_assoc. done.
  - intros Hno. rewrite (getAuthToken_refetch w Hno). cbn zeta.
    unfold Api.getAuthToken, bind, fetch.
    destruct (authorize (server w)) as [|r]; [done |].
    destruct (ok r); simpl; [|done].
    unfold response_json. destruct (json r); done.
Qed.

End TokenMore.

Lemma getAuthToken_failure_stores_nothing_witness :
  fst (Dashboard.getAuthToken (example_world example_server_down)) = inl AuthorizationFailed
  /\ requests (snd (Dashboard.getAuthToken (example_world example_server_down)))
     = [POST_getAuthorize].
Proof.
  destruct (getAuthToken_failure_stores_nothing (example_world example_server_down)
              (mkResponse false 500 "down" None))
    as (Hres & Hreq & _).
  - reflexivity.
  - reflexivity.
  - reflexivity.
  - split; [exact Hres | exact Hreq].
Defined.

Lemma getAuthToken_second_call_is_cached_witness :
  Dashboard.getAuthToken
    (later 1800000 (snd (Dashboard.getAuthToken (example_world example_server))))
  = (inr "fresh",
     later 1800000 (snd (Dashboard.getAuthToken (example_world example_server)))).
Proof.
  apply (proj2 (getAuthToken_second_call_is_cached (example_world example_server)
                  (mkResponse true 200 EmptyString (Some (mkAuthResponse "fresh" 3600)))
                  (mkAuthResponse "fresh" 3600) 1800000
                  eq_refl eq_refl eq_refl eq_refl ltac:(discriminate)
                  ltac:(cbn; lia))).
Defined.

Lemma api_getAuthToken_always_asks_witness :
  fst (Api.getAuthToken (example_world example_server))
  = fst (Dashboard.getAuthToken (example_world example_server)).
Proof.
  apply (proj2 (proj2 (proj2 (proj2
           (api_getAuthToken_always_asks (example_world example_server)))))).
  reflexivity.
Defined.

(** * Further properties of [fetchSales] *)

Lemma get_keeps_other_keys_aux {T : Type} (c : Cache.t T) (k k' : string) (t : Z) :
  k' <> k ->
  Cache.cache (snd (Cache.get t k c)) !! k' = Cache.cache c !! k'.
Proof.
  intros Hne. unfold Cache.get. destruct (Cache.cache c !! k) as [item|].
  - destruct (t - Cache.timestamp item <? Cache.duration c); simpl; [done |].
    apply lookup_delete_ne. congruence.
  - simpl. apply lookup_delete_ne. congruence.
Qed.

Section FetchSalesMore.
Context {number : Type}.
Implicit Types (s : State number) (w : World number) (d : option Direction).

Lemma fetchSales_without_token_does_nothing_aux s d w :
  truthy (authToken s) = false ->
  tokenCache (snd (Dashboard.fetch_and_render s d w)) = tokenCache w
  /\ dataCache (snd (Dashboard.fetch_and_render s d w)) = dataCache w.
Proof.
  intros Htok. unfold Dashboard.fetch_and_render, dispatch, Dashboard.fetchSales.
  rewrite Htok. simpl. done.
Qed.

Lemma fetch_without_token s d w :
  truthy (authToken s) = false ->
  fst (Dashboard.fetch_and_render s d w) = s
  /\ requests (snd (Dashboard.fetch_and_render s d w)) = requests w.
Proof.
  intros Htok. unfold Dashboard.fetch_and_render, dispatch, Dashboard.fetchSales.
  rewrite Htok. simpl. done.
Qed.

(** The setters that [fetchSales] calls write none of the token, the
    filters, the sort and the page. *)
Lemma commit_keeps (us : list (SetState number)) :
  forall s,
    authToken (commit s us) = authToken s
    /\ startDate (commit s us) = startDate s
    /\ endDate (commit s us) = endDate s
    /\ priceMin (commit s us) = priceMin s
    /\ email (commit s us) = email s
    /\ phone (commit s us) = phone s
    /\ sortBy (commit s us) = sortBy s
    /\ sortOrder (commit s us) = sortOrder s
    /\ currentPage (commit s us) = currentPage s.
Proof.
  induction us as [|u us IH]; intros s; [repeat split |].
  change (commit s (u :: us)) with (commit (apply_update s u) us).
  destruct (IH (apply_update s u)) as (H1 & H2 & H3 & H4 & H5 & H6 & H7 & H8 & H9).
  rewrite H1, H2, H3, H4, H5, H6, H7, H8, H9. now destruct u.
Qed.

(** The [filters] of a fetch are read from the filters, the sort and, with
    a direction, the cursors. *)
Lemma filters_of_ext s1 s2 d :
  startDate s1 = startDate s2 -> endDate s1 = endDate s2 ->
  priceMin s1 = priceMin s2 -> email s1 = email s2 -> phone s1 = phone s2 ->
  sortBy s1 = sortBy s2 -> sortOrder s1 = sortOrder s2 ->
  (d <> None -> afterToken s1 = afterToken s2 /\ beforeToken s1 = beforeToken s2) ->
  Dashboard.filters_of s1 d = Dashboard.filters_of s2 d.
Proof.
  intros H1 H2 H3 H4 H5 H6 H7 Hc. unfold Dashboard.filters_of.
  rewrite H1, H2, H3, H4, H5, H6, H7.
  destruct d as [[]|]; [| | done];
    destruct (Hc ltac:(discriminate)) as [Ha Hb]; rewrite ?Ha, ?Hb; done.
Qed.

(** What a run of [fetchSales] with a token leaves, path by path. *)
Lemma fetchSales_paths s d w :
  truthy (authToken s) = true ->
  let key := Dashboard.getCacheKey (Dashboard.filters_of s d) in
  let rq := GET_sales (or_else (authToken s) EmptyString)
              (Dashboard.searchParams_of (Dashboard.filters_of s d)) in
  let w0 := mkWorld (now w) (tokenCache w) (dataCache w) (server w) (requests w) [] in
  (exists item,
      Cache.cache (dataCache w) !! key = Some item
      /\ now w - Cache.timestamp item < Cache.duration (dataCache w)
      /\ snd (Dashboard.fetchSales s d w0)
         = mkWorld (now w) (tokenCache w) (dataCache w) (server w) (requests w)
             ([setLoading true; setError None] ++ adopt (Cache.data item)
              ++ [setLoading false]))
  \/ (fst (Cache.get (now w) key (dataCache w)) = None
      /\ call_fails (sales (server w) (or_else (authToken s) EmptyString)
                       (Dashboard.searchParams_of (Dashboard.filters_of s d)))
      /\ snd (Dashboard.fetchSales s d w0)
         = mkWorld (now w + latency (server w)) (tokenCache w)
             (snd (Cache.get (now w) key (dataCache w))) (server w)
             (requests w ++ [rq])
             [setLoading true; setError None;
              setError (Some Dashboard.load_failed); setLoading false])
  \/ (exists data,
        fst (Cache.get (now w) key (dataCache w)) = None
        /\ snd (Dashboard.fetchSales s d w0)
           = mkWorld (now w + latency (server w)) (tokenCache w)
               (Cache.set (now w + latency (server w)) key data
                  (snd (Cache.get (now w) key (dataCache w))))
               (server w) (requests w ++ [rq])
               ([setLoading true; setError None] ++ adopt data ++ [setLoading false])).
Proof.
  intros Htok key rq w0. unfold Dashboard.fetchSales. rewrite Htok. cbn [negb].
  destruct (fst (Cache.get (now w) key (dataCache w))) as [v|] eqn:Hget.
  - left. apply get_Some_inv in Hget as (item & Hk & Hfresh & _).
    exists item. split; [exact Hk | split; [exact Hfresh |]].
    now rewrite (body_hit _ _ _ w0 item).
  - destruct (reply_cases (sales (server w) (or_else (authToken s) EmptyString)
                             (Dashboard.searchParams_of (Dashboard.filters_of s d))))
      as [Hfail | (r & data & rs & Hsrv & Hok & Hjson & Hres)].
    + right. left. split; [done | split; [exact Hfail |]].
      now rewrite (body_miss_fails _ _ _ w0).
    + right. right. exists data. split; [done |].
      now rewrite (body_miss_good _ _ _ w0 r data rs).
Qed.

(** X11. Without a token [fetchSales] does nothing at all, in both
    variants: the state, the clock, both caches and the requests sent are
    as before, and no message is set, not even for an inverted date
    range. *)
Theorem fetchSales_without_token_does_nothing s d w :
  truthy (authToken s) = false ->
  fst (Dashboard.fetch_and_render s d w) = s
  /\ fst (ValidatedDashboard.fetch_and_render s d w) = s
  /\ requests (snd (Dashboard.fetch_and_render s d w)) = requests w
  /\ requests (snd (ValidatedDashboard.fetch_and_render s d w)) = requests w
  /\ dataCache (snd (Dashboard.fetch_and_render s d w)) = dataCache w
  /\ tokenCache (snd (Dashboard.fetch_and_render s d w)) = tokenCache w
  /\ now (snd (Dashboard.fetch_and_render s d w)) = now w
  /\ dataCache (snd (ValidatedDashboard.fetch_and_render s d w)) = dataCache w
  /\ tokenCache (snd (ValidatedDashboard.fetch_and_render s d w)) = tokenCache w
  /\ now (snd (ValidatedDashboard.fetch_and_render s d w)) = now w
  /\ error (fst (ValidatedDashboard.fetch_and_render s d w)) = error s.
Proof.
  intros Htok.
  unfold Dashboard.fetch_and_render, ValidatedDashboard.fetch_and_render, dispatch,
    Dashboard.fetchSales, ValidatedDashboard.fetchSales.
  rewrite Htok. simpl. done.
Qed.

(** X12. With a token, every run of [fetchSales] ends with the loading
    flag false, and with either no error or the load-failed message,
    whatever the cache and the server do. *)
Theorem fetchSales_always_settles s d w :
  truthy (authToken s) = true ->
  loading (fst (Dashboard.fetch_and_render s d w)) = false
  /\ (error (fst (Dashboard.fetch_and_render s d w)) = None
      \/ error (fst (Dashboard.fetch_and_render s d w)) = Some Dashboard.load_failed).
Proof.
  intros Htok. unfold Dashboard.fetch_and_render, dispatch.
  destruct (fetchSales_paths s d w Htok)
    as [(item & _ & _ & ->) | [(_ & _ & ->) | (data & _ & ->)]]; simpl; auto.
Qed.

(** X13. [fetchSales] writes the token cache never and the data cache
    under its own key only: the entries of all other keys are as before,
    expired ones included. *)
Theorem fetchSales_touches_own_entry_only s d w (k : string) :
  k <> Dashboard.getCacheKey (Dashboard.filters_of s d) ->
  tokenCache (snd (Dashboard.fetch_and_render s d w)) = tokenCache w
  /\ Cache.cache (dataCache (snd (Dashboard.fetch_and_render s d w))) !! k
     = Cache.cache (dataCache w) !! k
  /\ Cache.duration (dataCache (snd (Dashboard.fetch_and_render s d w)))
     = Cache.duration (dataCache w).
Proof.
  intros Hk. destruct (truthy (authToken s)) eqn:Htok.
  - unfold Dashboard.fetch_and_render, dispatch.
    destruct (fetchSales_paths s d w Htok)
      as [(item & _ & _ & ->) | [(_ & _ & ->) | (data & _ & ->)]]; simpl.
    + done.
    + split; [done |]. split; [| apply get_duration].
      now apply get_keeps_other_keys_aux.
    + split; [done |]. split; [| apply get_duration].
      rewrite lookup_insert_ne by congruence. now apply get_keeps_other_keys_aux.
  - destruct (fetchSales_without_token_does_nothing_aux s d w Htok) as (-> & ->). done.
Qed.

End FetchSalesMore.

Section FetchSalesTwice.
Context {number : Type}.
Implicit Types (s : State number) (w : World number) (d : option Direction).

Lemma fetch_and_render_fails s d w :
  truthy (authToken s) = true ->
  fst (Cache.get (now w) (Dashboard.getCacheKey (Dashboard.filters_of s d)) (dataCache w))
    = None ->
  call_fails (sales (server w) (or_else (authToken s) EmptyString)
                (Dashboard.searchParams_of (Dashboard.filters_of s d))) ->
  Dashboard.fetch_and_render s d w
  = (commit s [setLoading true; setError None;
               setError (Some Dashboard.load_failed); setLoading false],
     mkWorld (now w + latency (server w)) (tokenCache w)
       (snd (Cache.get (now w) (Dashboard.getCacheKey (Dashboard.filters_of s d))
               (dataCache w)))
       (server w)
       (requests w
        ++ [GET_sales (or_else (authToken s) EmptyString)
              (Dashboard.searchParams_of (Dashboard.filters_of s d))])
       [setLoading true; setError None;
        setError (Some Dashboard.load_failed); setLoading false]).
Proof.
  intros Htok Hmiss Hfail.
  unfold Dashboard.fetch_and_render, dispatch, Dashboard.fetchSales.
  rewrite Htok. cbn [negb]. now rewrite body_miss_fails.
Qed.

Lemma fetch_and_render_succeeds s d w
  (r : Response (option (SalesResponse number))) (data : SalesResponse number)
  (rs : Results number) :
  truthy (authToken s) = true ->
  fst (Cache.get (now w) (Dashboard.getCacheKey (Dashboard.filters_of s d)) (dataCache w))
    = None ->
  sales (server w) (or_else (authToken s) EmptyString)
    (Dashboard.searchParams_of (Dashboard.filters_of s d)) = Resolved r ->
  ok r = true -> json r = Some (Some data) -> results data = Some rs ->
  Dashboard.fetch_and_render s d w
  = (commit s ([setLoading true; setError None] ++ adopt data ++ [setLoading false]),
     mkWorld (now w + latency (server w)) (tokenCache w)
       (Cache.set (now w + latency (server w))
          (Dashboard.getCacheKey (Dashboard.filters_of s d)) data
          (snd (Cache.get (now w) (Dashboard.getCacheKey (Dashboard.filters_of s d))
                  (dataCache w))))
       (server w)
       (requests w
        ++ [GET_sales (or_else (authToken s) EmptyString)
              (Dashboard.searchParams_of (Dashboard.filters_of s d))])
       ([setLoading true; setError None] ++ adopt data ++ [setLoading false])).
Proof.
  intros Htok Hmiss Hsrv Hok Hjson Hres.
  unfold Dashboard.fetch_and_render, dispatch, Dashboard.fetchSales.
  rewrite Htok. cbn [negb]. now rewrite (body_miss_good _ _ _ _ r data rs).
Qed.

(** X14. A failed fetch is not cached: afterwards the data cache has no
    entry under the key, and the same fetch run again on what the first
    left sends the same request a second time. *)
Theorem fetchSales_failure_is_retried s d w :
  truthy (authToken s) = true ->
  fst (Cache.get (now w) (Dashboard.getCacheKey (Dashboard.filters_of s d)) (dataCache w))
    = None ->
  call_fails (sales (server w) (or_else (authToken s) EmptyString)
                (Dashboard.searchParams_of (Dashboard.filters_of s d))) ->
  Cache.cache (dataCache (snd (Dashboard.fetch_and_render s d w)))
    !! Dashboard.getCacheKey (Dashboard.filters_of s d) = None
  /\ requests (snd (Dashboard.fetch_and_render
                      (fst (Dashboard.fetch_and_render s d w)) d
                      (snd (Dashboard.fetch_and_render s d w))))
     = (requests w
        ++ [GET_sales (or_else (authToken s) EmptyString)
              (Dashboard.searchParams_of (Dashboard.filters_of s d));
            GET_sales (or_else (authToken s) EmptyString)
              (Dashboard.searchParams_of (Dashboard.filters_of s d))])%list.
Proof.
  intros Htok Hmiss Hfail.
  rewrite (fetch_and_render_fails s d w Htok Hmiss Hfail). cbn [fst snd dataCache].
  assert (Hgone : Cache.cache
                    (snd (Cache.get (now w)
                            (Dashboard.getCacheKey (Dashboard.filters_of s d)) (dataCache w)))
                    !! Dashboard.getCacheKey (Dashboard.filters_of s d) = None)
    by now apply get_absent_removed.
  split; [exact Hgone |].
  rewrite fetch_and_render_fails.
  - cbn [snd requests]. now rewrite <- app_assoc.
  - exact Htok.
  - cbn [now dataCache]. now rewrite get_missing.
  - exact Hfail.
Qed.

(** X15. After a fetch without direction has succeeded, the same fetch
    made less than the cache's duration later is served from the cache:
    no request is sent and the rows, totals and cursors shown are the same,
    with no error and the loading flag false. *)
Theorem fetchSales_refresh_hits_cache s w
  (r : Response (option (SalesResponse number))) (data : SalesResponse number)
  (rs : Results number) (delta : Z) :
  truthy (authToken s) = true ->
  fst (Cache.get (now w) (Dashboard.getCacheKey (Dashboard.filters_of s None))
         (dataCache w)) = None ->
  sales (server w) (or_else (authToken s) EmptyString)
    (Dashboard.searchParams_of (Dashboard.filters_of s None)) = Resolved r ->
  ok r = true -> json r = Some (Some data) -> results data = Some rs ->
  delta < Cache.duration (dataCache w) ->
  requests (snd (Dashboard.fetch_and_render
                   (fst (Dashboard.fetch_and_render s None w)) None
                   (later delta (snd (Dashboard.fetch_and_render s None w)))))
  = requests (snd (Dashboard.fetch_and_render s None w))
  /\ Dashboard.fetch_and_render
       (fst (Dashboard.fetch_and_render s None w)) None
       (later delta (snd (Dashboard.fetch_and_render s None w)))
     = (fst (Dashboard.fetch_and_render s None w),
        later delta (snd (Dashboard.fetch_and_render s None w))).
Proof.
  intros Htok Hmiss Hsrv Hok Hjson Hres Hdelta.
  rewrite (fetch_and_render_succeeds s None w r data rs) by assumption.
  cbn [fst snd].
  set (key := Dashboard.getCacheKey (Dashboard.filters_of s None)).
  set (us := ([setLoading true; setError None] ++ adopt data ++ [setLoading false])%list).
  assert (Hrun : Dashboard.fetch_and_render (commit s us) None
                   (later delta
                      (mkWorld (now w + latency (server w)) (tokenCache w)
                         (Cache.set (now w + latency (server w)) key data
                            (snd (Cache.get (now w) key (dataCache w))))
                         (server w)
                         (requests w
                          ++ [GET_sales (or_else (authToken s) EmptyString)
                                (Dashboard.searchParams_of (Dashboard.filters_of s None))])
                         us))
                 = (commit s us,
                    later delta
                      (mkWorld (now w + latency (server w)) (tokenCache w)
                         (Cache.set (now w + latency (server w)) key data
                            (snd (Cache.get (now w) key (dataCache w))))
                         (server w)
                         (requests w
                          ++ [GET_sales (or_else (authToken s) EmptyString)
                                (Dashboard.searchParams_of (Dashboard.filters_of s None))])
                         us))).
  { unfold Dashboard.fetch_and_render, dispatch, Dashboard.fetchSales.
    change (authToken (commit s us)) with (authToken s). rewrite Htok. cbn [negb].
    rewrite (body_hit _ _ _ _ (Cache.mkItem data (now w + latency (server w)))).
    - reflexivity.
    - cbn. apply lookup_insert_eq.
    - cbn. rewrite get_duration. lia. }
  rewrite Hrun. done.
Qed.

End FetchSalesTwice.

Lemma fetchSales_without_token_does_nothing_witness :
  fst (ValidatedDashboard.fetch_and_render example_state_inverted_unauthorized None
         (example_world example_server))
  = example_state_inverted_unauthorized.
Proof.
  apply (proj1 (proj2 (fetchSales_without_token_does_nothing
                         example_state_inverted_unauthorized None
                         (example_world example_server) eq_refl))).
Defined.

Lemma fetchSales_always_settles_witness :
  loading (fst (Dashboard.fetch_and_render example_state None
                  (example_world example_server_down))) = false.
Proof.
  apply (proj1 (fetchSales_always_settles example_state None
                  (example_world example_server_down) eq_refl)).
Defined.

Lemma fetchSales_touches_own_entry_only_witness :
  tokenCache (snd (Dashboard.fetch_and_render example_state None
                     (example_world example_server)))
  = tokenCache (example_world example_server).
Proof.
  apply (proj1 (fetchSales_touches_own_entry_only example_state None
                  (example_world example_server) "other" ltac:(discriminate))).
Defined.

Lemma fetchSales_failure_is_retried_witness :
  requests (snd (Dashboard.fetch_and_render
                   (fst (Dashboard.fetch_and_render example_state None
                           (example_world example_server_down))) None
                   (snd (Dashboard.fetch_and_render example_state None
                           (example_world example_server_down)))))
  = [ GET_sales "secret"
        (Dashboard.searchParams_of (Dashboard.filters_of example_state None));
      GET_sales "secret"
        (Dashboard.searchParams_of (Dashboard.filters_of example_state None)) ].
Proof.
  apply (proj2 (fetchSales_failure_is_retried example_state None
                  (example_world example_server_down) eq_refl
                  ltac:(vm_compute; reflexivity)
                  ltac:(simpl; apply fails_status; reflexivity))).
Defined.

Lemma fetchSales_refresh_hits_cache_witness :
  requests (snd (Dashboard.fetch_and_render
                   (fst (Dashboard.fetch_and_render example_state None
                           (example_world example_server))) None
                   (later 60000 (snd (Dashboard.fetch_and_render example_state None
                                        (example_world example_server))))))
  = requests (snd (Dashboard.fetch_and_render example_state None
                     (example_world example_server))).
Proof.
  apply (proj1 (fetchSales_refresh_hits_cache example_state (example_world example_server)
                  (mkResponse true 200 EmptyString (Some (Some example_response)))
                  example_response
                  (mkResults (Some [mkTotalSale "2025-01-01" 500])
                             (Some [mkSale "1" "2025-01-01T10:00:00Z" 500 "a@b.com" "+1" 0]))
                  60000 eq_refl ltac:(vm_compute; reflexivity) eq_refl eq_refl eq_refl
                  eq_refl ltac:(cbn; lia))).
Defined.

(** * The handlers *)

Section HandlersFacts.
Context {number : Type}.
Implicit Types (s : State number) (w : World number) (d : option Direction).

Lemma fetch_and_render_keeps s d w :
  authToken (fst (Dashboard.fetch_and_render s d w)) = authToken s
  /\ currentPage (fst (Dashboard.fetch_and_render s d w)) = currentPage s
  /\ sortBy (fst (Dashboard.fetch_and_render s d w)) = sortBy s
  /\ sortOrder (fst (Dashboard.fetch_and_render s d w)) = sortOrder s.
Proof.
  unfold Dashboard.fetch_and_render, dispatch. cbn [fst].
  destruct (commit_keeps (pending (snd (Dashboard.fetchSales s d
              (mkWorld (now w) (tokenCache w) (dataCache w) (server w) (requests w) []))))
              s) as (H1 & _ & _ & _ & _ & _ & H7 & H8 & H9).
  done.
Qed.

(** X16. From page 1 on, the paging controls and the handlers agree: the
    Previous button of the inline table is disabled exactly when
    [hasPreviousPage] is false; a handler whose control is off changes
    nothing and sends nothing; a handler whose control is on moves the
    page counter by one. *)
Theorem paging_controls_match_handlers s w :
  1 <= currentPage s ->
  Handlers.previous_disabled s = negb (Handlers.hasPreviousPage s)
  /\ (Handlers.hasPreviousPage s = false -> Handlers.handlePrevious s w = (s, w))
  /\ (Handlers.hasNextPage s = false -> Handlers.handleNext s w = (s, w))
  /\ (Handlers.hasPreviousPage s = true ->
      currentPage (fst (Handlers.handlePrevious s w)) = currentPage s - 1)
  /\ (Handlers.hasNextPage s = true ->
      currentPage (fst (Handlers.handleNext s w)) = currentPage s + 1).
Proof.
  intros Hpage.
  unfold Handlers.previous_disabled, Handlers.hasPreviousPage, Handlers.hasNextPage,
    Handlers.handlePrevious, Handlers.handleNext.
  split; [| split; [| split; [| split]]].
  - destruct (truthy (Some (beforeToken s))); simpl; [|done].
    destruct (Z.eqb_spec (currentPage s) 1), (Z.ltb_spec 1 (currentPage s)); simpl;
      try done; lia.
  - now intros ->.
  - now intros ->.
  - now intros ->.
  - now intros ->.
Qed.

(** X17. [handleNext] sends a request that echoes the after cursor and
    carries no before cursor, and [handlePrevious] one that echoes the
    before cursor and carries no after cursor, whenever the page asked for
    is not in the cache. *)
Theorem paging_request_echoes_one_cursor s w :
  truthy (authToken s) = true ->
  (afterToken s <> EmptyString ->
   fst (Cache.get (now w) (Dashboard.getCacheKey (Dashboard.filters_of s (Some next)))
          (dataCache w)) = None ->
   requests (snd (Handlers.handleNext s w))
   = (requests w
      ++ [GET_sales (or_else (authToken s) EmptyString)
            [ ("startDate", startDate s); ("endDate", endDate s);
              ("priceMin", priceMin s); ("email", email s); ("phone", phone s);
              ("sortBy", sortBy s); ("sortOrder", sortOrder s);
              ("after", afterToken s) ]])%list)
  /\ (beforeToken s <> EmptyString -> 1 < currentPage s ->
      fst (Cache.get (now w) (Dashboard.getCacheKey (Dashboard.filters_of s (Some prev)))
             (dataCache w)) = None ->
      requests (snd (Handlers.handlePrevious s w))
      = (requests w
         ++ [GET_sales (or_else (authToken s) EmptyString)
               [ ("startDate", startDate s); ("endDate", endDate s);
                 ("priceMin", priceMin s); ("email", email s); ("phone", phone s);
                 ("sortBy", sortBy s); ("sortOrder", sortOrder s);
                 ("before", beforeToken s) ]])%list).
Proof.
  intros Htok.
  assert (Hval : forall x : string, or_else (Some x) EmptyString = x).
  { intros x. unfold or_else, truthy.
    destruct (String.eqb_spec x EmptyString) as [->|]; done. }
  split.
  - intros Ha Hmiss. apply truthy_nonempty in Ha.
    unfold Handlers.handleNext. rewrite Ha. cbn [snd].
    unfold Dashboard.fetch_and_render, dispatch. cbn [snd].
    destruct (fetchSales_paths s (Some next) w Htok)
      as [(item & Hk & Hfresh & _) | [(_ & _ & ->) | (data & _ & ->)]].
    + rewrite (get_fresh _ _ _ _ Hk Hfresh) in Hmiss. discriminate.
    + cbn [requests]. rewrite searchParams_of_map. unfold Dashboard.filters_of.
      rewrite Ha. cbn [map app fst snd]. now rewrite !Hval.
    + cbn [requests]. rewrite searchParams_of_map. unfold Dashboard.filters_of.
      rewrite Ha. cbn [map app fst snd]. now rewrite !Hval.
  - intros Hb Hpage Hmiss. apply truthy_nonempty in Hb.
    unfold Handlers.handlePrevious. rewrite Hb.
    destruct (Z.ltb_spec 1 (currentPage s)); [|lia]. cbn [andb snd].
    unfold Dashboard.fetch_and_render, dispatch. cbn [snd].
    destruct (fetchSales_paths s (Some prev) w Htok)
      as [(item & Hk & Hfresh & _) | [(_ & _ & ->) | (data & _ & ->)]].
    + rewrite (get_fresh _ _ _ _ Hk Hfresh) in Hmiss. discriminate.
    + cbn [requests]. rewrite searchParams_of_map. unfold Dashboard.filters_of.
      rewrite Hb. cbn [map app fst snd]. now rewrite !Hval.
    + cbn [requests]. rewrite searchParams_of_map. unfold Dashboard.filters_of.
      rewrite Hb. cbn [map app fst snd]. now rewrite !Hval.
Qed.

(** X18. When the fetch of [handleNext] fails, the page counter has moved
    on all the same: the page shown is one higher while rows, totals and
    cursors are those of the page before, under the load-failed
    message. *)
Theorem handleNext_failure_still_turns_page s w :
  truthy (authToken s) = true ->
  afterToken s <> EmptyString ->
  fst (Cache.get (now w) (Dashboard.getCacheKey (Dashboard.filters_of s (Some next)))
         (dataCache w)) = None ->
  call_fails (sales (server w) (or_else (authToken s) EmptyString)
                (Dashboard.searchParams_of (Dashboard.filters_of s (Some next)))) ->
  currentPage (fst (Handlers.handleNext s w)) = currentPage s + 1
  /\ salesData (fst (Handlers.handleNext s w)) = salesData s
  /\ totalSalesData (fst (Handlers.handleNext s w)) = totalSalesData s
  /\ afterToken (fst (Handlers.handleNext s w)) = afterToken s
  /\ beforeToken (fst (Handlers.handleNext s w)) = beforeToken s
  /\ error (fst (Handlers.handleNext s w)) = Some Dashboard.load_failed.
Proof.
  intros Htok Ha Hmiss Hfail. apply truthy_nonempty in Ha.
  unfold Handlers.handleNext. rewrite Ha.
  rewrite (fetch_and_render_fails s (Some next) w Htok Hmiss Hfail). simpl. done.
Qed.

(** X19. The page counter never drops below 1: [fetchSales] leaves it
    alone, and the sort handler, the paging handlers and the reload effect
    take a counter that is at least 1 to one that is at least 1. *)
Theorem page_counter_stays_positive s w d (field : string) :
  1 <= currentPage s ->
  currentPage (fst (Dashboard.fetch_and_render s d w)) = currentPage s
  /\ 1 <= currentPage (Handlers.handleSort field s)
  /\ 1 <= currentPage (fst (Handlers.handleNext s w))
  /\ 1 <= currentPage (fst (Handlers.handlePrevious s w))
  /\ 1 <= currentPage (fst (Handlers.reload s w)).
Proof.
  intros Hpage.
  destruct (fetch_and_render_keeps s d w) as (_ & Hp & _).
  split; [exact Hp |]. split; [| split; [| split]].
  - unfold Handlers.handleSort. simpl. lia.
  - unfold Handlers.handleNext. destruct (truthy (Some (afterToken s))); simpl; lia.
  - unfold Handlers.handlePrevious. destruct (truthy (Some (beforeToken s))); simpl; [|lia].
    destruct (Z.ltb_spec 1 (currentPage s)); simpl; lia.
  - unfold Handlers.reload. destruct (truthy (authToken s)); simpl; lia.
Qed.

(** X20. [handleSort] on the active column flips the order, so that two
    clicks on a column whose order is asc or desc give the order back; on
    any other column it selects that column ascending.  Each click sets
    the page counter to 1 and leaves the cursors to the reload effect. *)
Theorem handleSort_toggles s (field : string) :
  (sortBy s = field -> sortOrder s = "asc" \/ sortOrder s = "desc" ->
   sortOrder (Handlers.handleSort field (Handlers.handleSort field s)) = sortOrder s)
  /\ (sortBy s = field -> sortOrder s = "asc" ->
      sortOrder (Handlers.handleSort field s) = "desc")
  /\ (sortBy s = field -> sortOrder s <> "asc" ->
      sortOrder (Handlers.handleSort field s) = "asc")
  /\ (sortBy s <> field -> sortOrder (Handlers.handleSort field s) = "asc")
  /\ sortBy (Handlers.handleSort field s) = field
  /\ currentPage (Handlers.handleSort field s) = 1
  /\ afterToken (Handlers.handleSort field s) = afterToken s
  /\ beforeToken (Handlers.handleSort field s) = beforeToken s.
Proof.
  unfold Handlers.handleSort.
  split; [| split; [| split; [| split]]].
  - intros <- Ho. rewrite String.eqb_refl. cbn -[String.eqb].
    rewrite String.eqb_refl. cbn -[String.eqb].
    destruct Ho as [Ho | Ho]; rewrite Ho; reflexivity.
  - intros <- Ho. rewrite String.eqb_refl, Ho. done.
  - intros <- Ho. rewrite String.eqb_refl.
    destruct (String.eqb_spec (sortOrder s) "asc"); done.
  - intros Hne. destruct (String.eqb_spec (sortBy s) field); done.
  - destruct (String.eqb (sortBy s) field); done.
Qed.

(** X21. When the fetch of the reload effect fails, rows and totals stay
    but both cursors have been cleared and the page counter is 1: neither
    paging control is available until a fetch succeeds. *)
Theorem reload_failure_clears_cursors s w :
  truthy (authToken s) = true ->
  fst (Cache.get (now w) (Dashboard.getCacheKey (Dashboard.filters_of s None))
         (dataCache w)) = None ->
  call_fails (sales (server w) (or_else (authToken s) EmptyString)
                (Dashboard.searchParams_of (Dashboard.filters_of s None))) ->
  salesData (fst (Handlers.reload s w)) = salesData s
  /\ totalSalesData (fst (Handlers.reload s w)) = totalSalesData s
  /\ afterToken (fst (Handlers.reload s w)) = EmptyString
  /\ beforeToken (fst (Handlers.reload s w)) = EmptyString
  /\ currentPage (fst (Handlers.reload s w)) = 1
  /\ error (fst (Handlers.reload s w)) = Some Dashboard.load_failed
  /\ Handlers.hasNextPage (fst (Handlers.reload s w)) = false
  /\ Handlers.hasPreviousPage (fst (Handlers.reload s w)) = false.
Proof.
  intros Htok Hmiss Hfail.
  unfold Handlers.reload. rewrite Htok.
  unfold dispatch, bind, call. cbn [fst snd now tokenCache dataCache server requests pending].
  unfold Dashboard.fetchSales. rewrite Htok. cbn [negb].
  rewrite body_miss_fails by assumption. simpl. done.
Qed.

(** X22. When the authorization on mount fails, the state has the
    authorize-failed message and still no token, and from there
    [fetchSales] in any direction and the reload effect do nothing and
    send nothing. *)
Theorem authorize_failure_blocks_fetching s w (e : Error) d :
  truthy (authToken s) = false ->
  fst (Dashboard.getAuthToken w) = inl e ->
  error (fst (Handlers.authorize s w)) = Some Handlers.authorize_failed
  /\ authToken (fst (Handlers.authorize s w)) = authToken s
  /\ fst (Dashboard.fetch_and_render (fst (Handlers.authorize s w)) d
            (snd (Handlers.authorize s w)))
     = fst (Handlers.authorize s w)
  /\ requests (snd (Dashboard.fetch_and_render (fst (Handlers.authorize s w)) d
                      (snd (Handlers.authorize s w))))
     = requests (snd (Handlers.authorize s w))
  /\ Handlers.reload (fst (Handlers.authorize s w)) (snd (Handlers.authorize s w))
     = Handlers.authorize s w.
Proof.
  intros Htok He. unfold Handlers.authorize.
  destruct (Dashboard.getAuthToken w) as [[e'|tok] w'] eqn:Hget; [|discriminate].
  cbn [fst snd].
  assert (Htok' : truthy (authToken (Handlers.with_error
                                       (Some Handlers.authorize_failed) s)) = false)
    by exact Htok.
  split; [done | split; [done |]].
  destruct (fetch_without_token
              (Handlers.with_error (Some Handlers.authorize_failed) s) d w' Htok')
    as (Hs & Hreq).
  split; [exact Hs | split; [exact Hreq |]].
  unfold Handlers.reload. now rewrite Htok'.
Qed.

(** X23. When the Refresh button of the validating dashboard is enabled,
    the date range is valid, so the fetch it triggers is never refused by
    the date check: it is the plain [fetchSales]. *)
Theorem refresh_enabled_fetch_not_refused s d w :
  Handlers.isDisabled s = false ->
  loading s = false
  /\ ValidatedDashboard.isDateRangeValid s = true
  /\ ValidatedDashboard.fetch_and_render s d w = Dashboard.fetch_and_render s d w.
Proof.
  unfold Handlers.isDisabled. intros H.
  apply orb_false_elim in H as [Hl Hv]. apply negb_false_iff in Hv.
  split; [exact Hl | split; [exact Hv |]].
  unfold ValidatedDashboard.fetch_and_render, Dashboard.fetch_and_render, dispatch,
    ValidatedDashboard.fetchSales, Dashboard.fetchSales.
  now rewrite Hv.
Qed.

End HandlersFacts.

Lemma paging_controls_match_handlers_witness :
  Handlers.handlePrevious example_state (example_world example_server)
  = (example_state, example_world example_server)
  /\ currentPage (fst (Handlers.handleNext example_state_page3
                         (example_world example_server))) = 4.
Proof.
  split.
  - apply (proj1 (proj2 (paging_controls_match_handlers example_state
                           (example_world example_server) ltac:(cbn; lia)))).
    reflexivity.
  - apply (proj2 (proj2 (proj2 (proj2
             (paging_controls_match_handlers example_state_page3
                (example_world example_server) ltac:(cbn; lia)))))).
    reflexivity.
Defined.

Lemma paging_request_echoes_one_cursor_witness :
  requests (snd (Handlers.handleNext example_state_page3 (example_world example_server)))
  = [GET_sales "secret"
       [ ("startDate", "2025-01-01"); ("endDate", "2025-01-31");
         ("priceMin", EmptyString); ("email", EmptyString); ("phone", EmptyString);
         ("sortBy", "date"); ("sortOrder", "asc"); ("after", "tok3") ]].
Proof.
  apply (proj1 (paging_request_echoes_one_cursor example_state_page3
                  (example_world example_server) eq_refl)).
  - discriminate.
  - vm_compute. reflexivity.
Defined.

Lemma handleNext_failure_still_turns_page_witness :
  currentPage (fst (Handlers.handleNext example_state_page3
                      (example_world example_server_down))) = 4
  /\ afterToken (fst (Handlers.handleNext example_state_page3
                        (example_world example_server_down))) = "tok3".
Proof.
  destruct (handleNext_failure_still_turns_page example_state_page3
              (example_world example_server_down))
    as (Hp & _ & _ & Ha & _).
  - reflexivity.
  - discriminate.
  - vm_compute. reflexivity.
  - simpl. apply fails_status. reflexivity.
  - split; [exact Hp | exact Ha].
Defined.

Lemma page_counter_stays_positive_witness :
  1 <= currentPage (fst (Handlers.handlePrevious example_state_page3
                           (example_world example_server))).
Proof.
  apply (proj1 (proj2 (proj2 (proj2
           (page_counter_stays_positive example_state_page3
              (example_world example_server) None "date" ltac:(cbn; lia)))))).
Defined.

Lemma handleSort_toggles_witness :
  sortOrder (Handlers.handleSort "date" (Handlers.handleSort "date" example_state)) = "asc"
  /\ sortOrder (Handlers.handleSort "price" example_state) = "asc".
Proof.
  split.
  - apply (proj1 (handleSort_toggles example_state "date")); [reflexivity | now left].
  - apply (proj1 (proj2 (proj2 (proj2 (handleSort_toggles example_state "price"))))).
    discriminate.
Defined.

Lemma reload_failure_clears_cursors_witness :
  afterToken (fst (Handlers.reload example_state_page3 (example_world example_server_down)))
  = EmptyString
  /\ currentPage (fst (Handlers.reload example_state_page3
                         (example_world example_server_down))) = 1.
Proof.
  destruct (reload_failure_clears_cursors example_state_page3
              (example_world example_server_down))
    as (_ & _ & Ha & _ & Hp & _).
  - reflexivity.
  - vm_compute. reflexivity.
  - simpl. apply fails_status. reflexivity.
  - split; [exact Ha | exact Hp].
Defined.

Lemma authorize_failure_blocks_fetching_witness :
  error (fst (Handlers.authorize example_state_unauthorized
                (example_world example_server_down)))
  = Some Handlers.authorize_failed
  /\ requests (snd (Dashboard.fetch_and_render
                      (fst (Handlers.authorize example_state_unauthorized
                              (example_world example_server_down))) None
                      (snd (Handlers.authorize example_state_unauthorized
                              (example_world example_server_down)))))
     = requests (snd (Handlers.authorize example_state_unauthorized
                        (example_world example_server_down))).
Proof.
  destruct (authorize_failure_blocks_fetching example_state_unauthorized
              (example_world example_server_down) AuthorizationFailed None)
    as (He & _ & _ & Hreq & _).
  - reflexivity.
  - reflexivity.
  - split; [exact He | exact Hreq].
Defined.

Lemma refresh_enabled_fetch_not_refused_witness :
  ValidatedDashboard.fetch_and_render example_state None (example_world example_server)
  = Dashboard.fetch_and_render example_state None (example_world example_server).
Proof.
  apply (proj2 (proj2 (refresh_enabled_fetch_not_refused example_state None
                         (example_world example_server) eq_refl))).
Defined.

(** * The [useSWR] variant *)

(** X24. The two tests for an expired token agree except on a token that
    is exactly one hour old: the cache of the other variants treats it as
    expired, [isTokenExpired] does not. *)
Theorem token_expiry_tests_differ_at_one_hour (now stored : Z) (tok : string) :
  (now - stored <> SwrDashboard.oneHour ->
   (SwrDashboard.isTokenExpired now stored = true
    <-> fst (Cache.get now Dashboard.TOKEN_CACHE_KEY
               (Cache.set stored Dashboard.TOKEN_CACHE_KEY tok tokenCache_init)) = None))
  /\ (now - stored = SwrDashboard.oneHour ->
      SwrDashboard.isTokenExpired now stored = false
      /\ fst (Cache.get now Dashboard.TOKEN_CACHE_KEY
                (Cache.set stored Dashboard.TOKEN_CACHE_KEY tok tokenCache_init)) = None).
Proof.
  unfold SwrDashboard.isTokenExpired, SwrDashboard.oneHour.
  assert (Hd : Cache.duration (T := string) tokenCache_init = 60 * 60 * 1000) by reflexivity.
  split.
  - intros Hne. split.
    + intros H. apply Z.ltb_lt in H.
      rewrite (get_stale _ _ _ (Cache.mkItem tok stored));
        [done | apply lookup_insert_eq | simpl; lia].
    + intros H. apply Z.ltb_lt.
      destruct (Z.lt_ge_cases (now - stored) (60 * 60 * 1000)) as [Hlt | Hge]; [| lia].
      rewrite (get_fresh _ _ _ (Cache.mkItem tok stored)) in H;
        [discriminate | apply lookup_insert_eq | simpl; lia].
  - intros Heq. split.
    + apply Z.ltb_ge. lia.
    + rewrite (get_stale _ _ _ (Cache.mkItem tok stored));
        [done | apply lookup_insert_eq | simpl; lia].
Qed.

Lemma token_expiry_tests_differ_at_one_hour_witness :
  SwrDashboard.isTokenExpired 3600000 0 = false
  /\ fst (Cache.get 3600000 Dashboard.TOKEN_CACHE_KEY
            (Cache.set 0 Dashboard.TOKEN_CACHE_KEY "secret" tokenCache_init)) = None.
Proof.
  apply (proj2 (token_expiry_tests_differ_at_one_hour 3600000 0 "secret")).
  reflexivity.
Defined.

Section SwrFacts.
Implicit Types (s : SwrDashboard.State).

Lemma or_else_value (x : string) : or_else (Some x) EmptyString = x.
Proof.
  unfold or_else, truthy. destruct (String.eqb_spec x EmptyString) as [->|]; done.
Qed.

Lemma not_truthy_empty (x : string) : truthy (Some x) = false -> x = EmptyString.
Proof.
  simpl. destruct (String.eqb_spec x EmptyString); [done | discriminate].
Qed.

(** X25. With a token, the sales URL always carries the same nine
    parameters, each filter with the value it has in the state, empty or
    not; of the two cursors at most one is non-empty, and when the state
    holds both, the before cursor is the one sent. *)
Theorem buildSalesUrl_nine_parameters s :
  truthy (SwrDashboard.token s) = true ->
  exists q,
    SwrDashboard.buildSalesUrl s = Some q
    /\ length q = 9%nat
    /\ searchParams_get "startDate" q = Some (SwrDashboard.startDate s)
    /\ searchParams_get "endDate" q = Some (SwrDashboard.endDate s)
    /\ searchParams_get "priceMin" q = Some (SwrDashboard.priceMin s)
    /\ searchParams_get "email" q = Some (SwrDashboard.email s)
    /\ searchParams_get "phone" q = Some (SwrDashboard.phone s)
    /\ searchParams_get "sortBy" q = Some (SwrDashboard.sortBy s)
    /\ searchParams_get "sortOrder" q = Some (SwrDashboard.sortOrder s)
    /\ (searchParams_get "after" q = Some EmptyString
        \/ searchParams_get "before" q = Some EmptyString)
    /\ (SwrDashboard.before s <> EmptyString ->
        searchParams_get "before" q = Some (SwrDashboard.before s)
        /\ searchParams_get "after" q = Some EmptyString)
    /\ (SwrDashboard.before s = EmptyString ->
        searchParams_get "after" q = Some (SwrDashboard.after s)
        /\ searchParams_get "before" q = Some EmptyString).
Proof.
  intros Htok. unfold SwrDashboard.buildSalesUrl. rewrite Htok. cbn [negb].
  eexists. split; [reflexivity |]. rewrite !or_else_value.
  destruct (truthy (Some (SwrDashboard.before s))) eqn:Hb;
    [| destruct (truthy (Some (SwrDashboard.after s))) eqn:Ha].
  - apply truthy_nonempty in Hb. cbn.
    repeat split; auto; try (now left); try (now right); intros; congruence.
  - apply not_truthy_empty in Hb. cbn.
    repeat split; auto; try (now left); try (now right); intros; congruence.
  - apply not_truthy_empty in Hb. apply not_truthy_empty in Ha. rewrite Ha.
    cbn. repeat split; auto; try (now left); try (now right); intros; congruence.
Qed.

(** X26. Each handler leaves at most one cursor set for the next URL: the
    next-page handler sends the after cursor of the last response and an
    empty before, the previous-page handler the reverse, and a change of
    sort or filter sends both empty, which is the first page. *)
Theorem swr_handlers_set_one_cursor s (a b column : string) :
  truthy (SwrDashboard.token s) = true ->
  (SwrDashboard.paginationData_after s = Some a -> a <> EmptyString ->
   exists q,
     SwrDashboard.buildSalesUrl (SwrDashboard.handleNextPage s) = Some q
     /\ searchParams_get "after" q = Some a
     /\ searchParams_get "before" q = Some EmptyString)
  /\ (SwrDashboard.paginationData_before s = Some b -> b <> EmptyString ->
      exists q,
        SwrDashboard.buildSalesUrl (SwrDashboard.handlePrevPage s) = Some q
        /\ searchParams_get "before" q = Some b
        /\ searchParams_get "after" q = Some EmptyString)
  /\ (exists q,
        SwrDashboard.buildSalesUrl (SwrDashboard.handleFilterChange s) = Some q
        /\ searchParams_get "after" q = Some EmptyString
        /\ searchParams_get "before" q = Some EmptyString)
  /\ (exists q,
        SwrDashboard.buildSalesUrl (SwrDashboard.handleSort column s) = Some q
        /\ searchParams_get "after" q = Some EmptyString
        /\ searchParams_get "before" q = Some EmptyString
        /\ searchParams_get "sortBy" q = Some column).
Proof.
  intros Htok. split; [| split; [| split]].
  - intros Hpd Ha. unfold SwrDashboard.handleNextPage. rewrite Hpd.
    apply truthy_nonempty in Ha. rewrite Ha.
    unfold SwrDashboard.buildSalesUrl. cbn -[truthy or_else]. rewrite Htok. cbn [negb].
    eexists. split; [reflexivity |].
    rewrite (or_else_value a). change (truthy (Some EmptyString)) with false.
    rewrite Ha. cbn. done.
  - intros Hpd Hb. unfold SwrDashboard.handlePrevPage. rewrite Hpd.
    apply truthy_nonempty in Hb. rewrite Hb.
    unfold SwrDashboard.buildSalesUrl. cbn -[truthy or_else]. rewrite Htok. cbn [negb].
    eexists. split; [reflexivity |].
    rewrite (or_else_value b). rewrite Hb. cbn. done.
  - unfold SwrDashboard.handleFilterChange, SwrDashboard.buildSalesUrl.
    cbn -[truthy or_else]. rewrite Htok. cbn [negb].
    eexists. split; [reflexivity |]. cbn. done.
  - unfold SwrDashboard.handleSort, SwrDashboard.buildSalesUrl.
    destruct (String.eqb_spec (SwrDashboard.sortBy s) column) as [Heq | Hne];
      cbn -[truthy or_else]; rewrite Htok; cbn [negb];
      (eexists; split; [reflexivity |]); cbn; rewrite ?Heq; done.
Qed.

(** X27. [handleSort] of this variant flips the order on the active
    column: asc becomes desc and anything else becomes asc, so two clicks
    give back an order that was asc or desc.  On any other column it
    selects that column ascending.  The column clicked is the sort column
    afterwards, both cursors are cleared, and nothing else changes. *)
Theorem swr_handleSort_toggles s (column : string) :
  (SwrDashboard.sortBy s = column ->
   SwrDashboard.sortOrder s = "asc" \/ SwrDashboard.sortOrder s = "desc" ->
   SwrDashboard.sortOrder (SwrDashboard.handleSort column (SwrDashboard.handleSort column s))
   = SwrDashboard.sortOrder s)
  /\ (SwrDashboard.sortBy s <> column ->
      SwrDashboard.sortBy (SwrDashboard.handleSort column s) = column
      /\ SwrDashboard.sortOrder (SwrDashboard.handleSort column s) = "asc")
  /\ SwrDashboard.after (SwrDashboard.handleSort column s) = EmptyString
  /\ SwrDashboard.before (SwrDashboard.handleSort column s) = EmptyString
  /\ (SwrDashboard.sortBy s = column -> SwrDashboard.sortOrder s = "asc" ->
      SwrDashboard.sortOrder (SwrDashboard.handleSort column s) = "desc")
  /\ (SwrDashboard.sortBy s = column -> SwrDashboard.sortOrder s <> "asc" ->
      SwrDashboard.sortOrder (SwrDashboard.handleSort column s) = "asc")
  /\ SwrDashboard.sortBy (SwrDashboard.handleSort column s) = column
  /\ SwrDashboard.handleSort column s
     = SwrDashboard.mkState (SwrDashboard.token s) (SwrDashboard.startDate s)
         (SwrDashboard.endDate s) (SwrDashboard.priceMin s) (SwrDashboard.email s)
         (SwrDashboard.phone s)
         column
         (SwrDashboard.sortOrder (SwrDashboard.handleSort column s))
         EmptyString EmptyString
         (SwrDashboard.paginationData_after s) (SwrDashboard.paginationData_before s).
Proof.
  unfold SwrDashboard.handleSort.
  split; [| split; [| split; [| split; [| split; [| split; [| split]]]]]].
  - intros <- Ho. rewrite String.eqb_refl. cbn -[String.eqb].
    rewrite String.eqb_refl. cbn -[String.eqb].
    destruct Ho as [Ho | Ho]; rewrite Ho; reflexivity.
  - intros Hne. destruct (String.eqb_spec (SwrDashboard.sortBy s) column); done.
  - destruct (String.eqb (SwrDashboard.sortBy s) column); done.
  - destruct (String.eqb (SwrDashboard.sortBy s) column); done.
  - intros <- Ho. rewrite String.eqb_refl, Ho. reflexivity.
  - intros <- Ho. rewrite String.eqb_refl.
    destruct (String.eqb_spec (SwrDashboard.sortOrder s) "asc"); done.
  - destruct (String.eqb_spec (SwrDashboard.sortBy s) column) as [<-|]; done.
  - destruct (String.eqb_spec (SwrDashboard.sortBy s) column) as [<-|]; done.
Qed.

End SwrFacts.

Lemma buildSalesUrl_nine_parameters_witness :
  exists q,
    SwrDashboard.buildSalesUrl example_swr_state_both = Some q
    /\ length q = 9%nat
    /\ searchParams_get "before" q = Some "tok1"
    /\ searchParams_get "after" q = Some EmptyString.
Proof.
  destruct (buildSalesUrl_nine_parameters example_swr_state_both eq_refl)
    as (q & Hq & Hlen & _ & _ & _ & _ & _ & _ & _ & _ & Hboth & _).
  destruct (Hboth ltac:(discriminate)) as (Hb & Ha).
  exists q. split; [exact Hq | split; [exact Hlen | split; [exact Hb | exact Ha]]].
Defined.

Lemma swr_handlers_set_one_cursor_witness :
  exists q,
    SwrDashboard.buildSalesUrl (SwrDashboard.handleNextPage example_swr_state) = Some q
    /\ searchParams_get "after" q = Some "tok2"
    /\ searchParams_get "before" q = Some EmptyString.
Proof.
  apply (proj1 (swr_handlers_set_one_cursor example_swr_state "tok2" "tok1" "date" eq_refl)).
  - reflexivity.
  - discriminate.
Defined.

Lemma swr_handleSort_toggles_witness :
  SwrDashboard.sortOrder
    (SwrDashboard.handleSort "date" (SwrDashboard.handleSort "date" example_swr_state))
  = "asc".
Proof.
  apply (proj1 (swr_handleSort_toggles example_swr_state "date")); [reflexivity | now left].
Defined.

(** * The missing date check *)

(** With a token and no answer from the cache, [fetchSales] of
    SalesDashboard.tsx sends its request: nothing in it reads the order of
    the two dates. *)
Lemma fetchSales_miss_sends_request {number : Type} (s : State number)
  (d : option Direction) (w : World number) :
  truthy (authToken s) = true ->
  fst (Cache.get (now w) (Dashboard.getCacheKey (Dashboard.filters_of s d)) (dataCache w))
    = None ->
  requests (snd (Dashboard.fetch_and_render s d w))
  = (requests w
     ++ [GET_sales (or_else (authToken s) EmptyString)
           (Dashboard.searchParams_of (Dashboard.filters_of s d))])%list.
Proof.
  intros Htok Hmiss. unfold Dashboard.fetch_and_render, dispatch. cbn [snd].
  destruct (fetchSales_paths s d w Htok)
    as [(item & Hk & Hfresh & _) | [(_ & _ & ->) | (data & _ & ->)]].
  - rewrite (get_fresh _ _ _ _ Hk Hfresh) in Hmiss. discriminate.
  - reflexivity.
  - reflexivity.
Qed.

(** C3 (where the code departs from it).  [fetchSales] of
    components/SalesDashboard.tsx has no date check.  With a token and no
    cached answer it sends the request whatever the order of the two
    dates; with [startDate] 2025-02-01 and [endDate] 2025-01-01 the
    request leaves with both dates in it, no message is set and the rows
    shown are replaced by those of the response. *)
Theorem fetchSales_sends_inverted_range :
  (forall (number : Type) (s : State number) (d : option Direction) (w : World number),
      truthy (authToken s) = true ->
      startDate s <> EmptyString -> endDate s <> EmptyString ->
      js_gt (startDate s) (endDate s) = true ->
      fst (Cache.get (now w) (Dashboard.getCacheKey (Dashboard.filters_of s d))
             (dataCache w)) = None ->
      requests (snd (Dashboard.fetch_and_render s d w))
      = (requests w
         ++ [GET_sales (or_else (authToken s) EmptyString)
               (Dashboard.searchParams_of (Dashboard.filters_of s d))])%list)
  /\ js_gt (startDate example_state_inverted) (endDate example_state_inverted) = true
  /\ requests (snd (Dashboard.fetch_and_render example_state_inverted None
                      (example_world example_server)))
     = [GET_sales "secret"
          [ ("startDate", "2025-02-01"); ("endDate", "2025-01-01");
            ("priceMin", EmptyString); ("email", EmptyString);
            ("phone", EmptyString); ("sortBy", "date"); ("sortOrder", "asc") ]]
  /\ error (fst (Dashboard.fetch_and_render example_state_inverted None
                   (example_world example_server))) = None
  /\ salesData (fst (Dashboard.fetch_and_render example_state_inverted None
                       (example_world example_server)))
     = [mkSale "1" "2025-01-01T10:00:00Z" 500 "a@b.com" "+1" 0]
  /\ salesData example_state_inverted = [].
Proof.
  split.
  - intros number s d w Htok _ _ _ Hmiss. now apply fetchSales_miss_sends_request.
  - repeat split; vm_compute; reflexivity.
Qed.

Lemma fetchSales_sends_inverted_range_witness :
  requests (snd (Dashboard.fetch_and_render example_state_inverted (Some next)
                   (example_world example_server)))
  = [GET_sales "secret"
       (Dashboard.searchParams_of (Dashboard.filters_of example_state_inverted (Some next)))].
Proof.
  apply (proj1 fetchSales_sends_inverted_range Z example_state_inverted (Some next)
           (example_world example_server)).
  - reflexivity.
  - discriminate.
  - discriminate.
  - reflexivity.
  - vm_compute. reflexivity.
Defined.
